(** * MikroTik RouterOS / SwitchOS driver: a shallow embedding

    Source: [src/netmiko/mikrotik/mikrotik_ssh.py], class [MikrotikBase]
    (with its two empty subclasses [MikrotikRouterOsSSH] and
    [MikrotikSwitchOsSSH]).

    Layout of the development:
    - [PyStr]: the Python [str] operations the driver uses
      ([strip], [rstrip], [split], [join], [in]) and [re.escape];
    - [Py]: values, exceptions and the state-and-exception monad in which
      methods run;
    - [Netmiko]: the attributes and methods inherited from the base
      connection classes, which are not part of the driver's file;
    - [Mikrotik]: the methods of [MikrotikBase], one definition per method;
    - [SimDevice]: a small simulated device on which statements are run;
    - the theorems. *)

From Stdlib Require Import String Ascii List Bool Lia NArith QArith.
From stdpp Require Import base gmap strings.

Open Scope string_scope.
Open Scope list_scope.

(* ===================================================================== *)
(** * Python strings *)
(* ===================================================================== *)

(** A Python [str] is modelled as a [string]; a character is a code point
    below 256. *)
Module PyStr.

(** [str.isspace] on one character, for code points below 256: the
    characters that [str.strip()] with no argument removes. *)
Definition isspace (c : ascii) : bool :=
  let n := N_of_ascii c in
  ((9 <=? n) && (n <=? 13) || (28 <=? n) && (n <=? 32)
   || (n =? 133) || (n =? 160))%N.

(** [s.lstrip()] *)
Fixpoint lstrip (s : string) : string :=
  match s with
  | EmptyString => EmptyString
  | String c s' => if isspace c then lstrip s' else s
  end.

Definition is_empty (s : string) : bool :=
  match s with EmptyString => true | String _ _ => false end.

(** [s.rstrip()] *)
Fixpoint rstrip (s : string) : string :=
  match s with
  | EmptyString => EmptyString
  | String c s' =>
      let r := rstrip s' in
      if is_empty r && isspace c then EmptyString else String c r
  end.

(** [s.strip()] *)
Definition strip (s : string) : string := rstrip (lstrip s).

(** [s.startswith(p)] *)
Fixpoint startswith (p s : string) : bool :=
  match p, s with
  | EmptyString, _ => true
  | String _ _, EmptyString => false
  | String a p', String b s' => Ascii.eqb a b && startswith p' s'
  end.

(** [sub in s]: [sub] starts at some position of [s]. *)
Fixpoint contains (sub s : string) : bool :=
  startswith sub s
  || match s with
     | EmptyString => false
     | String _ s' => contains sub s'
     end.

(** [s[n:]] *)
Fixpoint drop (n : nat) (s : string) : string :=
  match n, s with
  | O, _ => s
  | S _, EmptyString => EmptyString
  | S k, String _ s' => drop k s'
  end.

(** [s.partition(sep)] without the separator: the text before and the
    text after the leftmost occurrence of [sep], if there is one. *)
Fixpoint find_sep (sep s : string) : option (string * string) :=
  if startswith sep s then Some (EmptyString, drop (String.length sep) s)
  else match s with
       | EmptyString => None
       | String c s' =>
           match find_sep sep s' with
           | Some (before, after) => Some (String c before, after)
           | None => None
           end
       end.

(** The lines of [s.split(sep)] for a non-empty [sep]: cut at the
    leftmost occurrence, go on with what follows it.  Every cut consumes
    at least one character, so [length s] rounds are enough
    ([split_lines_eq] below is the unfolding without the counter). *)
Fixpoint split_rounds (rounds : nat) (sep s : string) : list string :=
  match find_sep sep s with
  | None => [s]
  | Some (before, after) =>
      match rounds with
      | O => [s]
      | S k => before :: split_rounds k sep after
      end
  end.

Definition split_lines (sep s : string) : list string :=
  split_rounds (String.length s) sep s.

(** [sep.join(ls)] *)
Fixpoint join (sep : string) (ls : list string) : string :=
  match ls with
  | [] => EmptyString
  | [x] => x
  | x :: rest => x +:+ sep +:+ join sep rest
  end.

(** ** [re.escape]

    [_special_chars_map] of Python's [re] module: the characters of
    ["()[]{}?*+-|^$\\.&~# \t\n\r\v\f"]. *)
Definition special_chars : list ascii :=
  list_ascii_of_string "()[]{}?*+-|^$\.&~# "
    ++ ["009"; "010"; "013"; "011"; "012"]%char.

Definition is_special (c : ascii) : bool :=
  existsb (Ascii.eqb c) special_chars.

(** [re.escape(s)]: a backslash before every special character. *)
Fixpoint re_escape (s : string) : string :=
  match s with
  | EmptyString => EmptyString
  | String c s' =>
      if is_special c then String "\" (String c (re_escape s'))
      else String c (re_escape s')
  end.

(** The regular-expression metacharacters of [re] (without flags). *)
Definition is_metachar (c : ascii) : bool :=
  existsb (Ascii.eqb c) (list_ascii_of_string ".^$*+?{}[]\|()").

Definition is_alnum (c : ascii) : bool :=
  let n := N_of_ascii c in
  ((48 <=? n) && (n <=? 57) || (65 <=? n) && (n <=? 90)
   || (97 <=? n) && (n <=? 122))%N.

(** Reading of a pattern that is a plain literal: an unescaped
    character that is no metacharacter stands for itself, and so does a
    backslash followed by a character that is neither a letter nor a
    digit.  [None] for every other pattern (a wildcard, a class, a
    repetition, a group, an anchor, a letter or digit escape). *)
Fixpoint pattern_literal (p : string) : option string :=
  match p with
  | EmptyString => Some EmptyString
  | String c p' =>
      if Ascii.eqb c "\" then
        match p' with
        | EmptyString => None
        | String d p'' =>
            if is_alnum d then None
            else match pattern_literal p'' with
                 | Some l => Some (String d l)
                 | None => None
                 end
        end
      else if is_metachar c then None
      else match pattern_literal p' with
           | Some l => Some (String c l)
           | None => None
           end
  end.

End PyStr.

(* ===================================================================== *)
(** * Python values, exceptions and effects *)
(* ===================================================================== *)

Module Py.

(** The values that travel through [*args] and [**kwargs]. *)
Inductive pyval : Type :=
| PyNone
| PyBool (b : bool)
| PyInt (z : Z)
| PyFloat (q : Q)
| PyStr (s : string).

(** What a command returns: [Union[str, List[Any], Dict[str, Any]]]. *)
Inductive output : Type :=
| OutStr (s : string)
| OutList (items : list pyval)
| OutDict (entries : list (string * pyval)).

(** [v is None] *)
Definition is_None (v : pyval) : bool :=
  match v with PyNone => true | _ => false end.

(** [d.get(k)]: the value under [k], [None] when the key is missing. *)
Definition dict_get (d : gmap string pyval) (k : string) : pyval :=
  match d !! k with Some v => v | None => PyNone end.

(** The exceptions that can cross the driver.  [ReadTimeout] is the
    class of [netmiko.ssh_exception]; [ReadException] is its parent
    class; [Raised cls] stands for an exception of any other class. *)
Inductive exn : Type :=
| ReadTimeout (msg : string)
| ReadException (msg : string)
| ValueError (msg : string)
| IndexError (msg : string)
| Raised (cls msg : string).

(** [isinstance(e, ReadTimeout)]: what [except ReadTimeout] catches. *)
Definition is_ReadTimeout (e : exn) : bool :=
  match e with ReadTimeout _ => true | _ => false end.

(** A method body: it reads and updates the object [St] and either
    returns a value or raises; the updates made before a [raise] stay. *)
Definition M (St A : Type) : Type := St -> (exn + A) * St.

Definition ret {St A} (a : A) : M St A := fun st => (inr a, st).

Definition raise {St A} (e : exn) : M St A := fun st => (inl e, st).

Definition bind {St A B} (m : M St A) (k : A -> M St B) : M St B :=
  fun st =>
    match m st with
    | (inr a, st') => k a st'
    | (inl e, st') => (inl e, st')
    end.

(** [try: body  except <class>: handler] *)
Definition try_except {St A} (body : M St A) (catches : exn -> bool)
    (handler : M St A) : M St A :=
  fun st =>
    match body st with
    | (inl e, st') => if catches e then handler st' else (inl e, st')
    | (inr a, st') => (inr a, st')
    end.

(** Reading and assigning attributes of [self]. *)
Definition get {St A} (attr : St -> A) : M St A := fun st => (inr (attr st), st).

Definition assign {St} (update : St -> St) : M St unit :=
  fun st => (inr tt, update st).

(** [s.split(sep)]: [ValueError] on an empty separator. *)
Definition str_split (s sep : string) : exn + list string :=
  if PyStr.is_empty sep then inl (ValueError "empty separator")
  else inr (PyStr.split_lines sep s).

(** [ls[-1]]: [IndexError] on an empty list. *)
Definition index_last (ls : list string) : exn + string :=
  match last ls with
  | Some x => inr x
  | None => inl (IndexError "list index out of range")
  end.

(** An argument with a default value: [None] when the caller leaves it
    out. *)
Definition or_default {A} (supplied : option A) (default : A) : A :=
  match supplied with Some a => a | None => default end.

(** A pure computation that may raise. *)
Definition lift {St A} (r : exn + A) : M St A := fun st => (r, st).

(** A method of a part of the object, run on the whole object. *)
Definition zoom {St Part A} (part : St -> Part) (set_part : Part -> St -> St)
    (m : M Part A) : M St A :=
  fun st => let (r, p) := m (part st) in (r, set_part p st).

End Py.

Notation "'let*' x ':=' m 'in' k" := (Py.bind m (fun x => k))
  (at level 10, x name, m at level 100, k at level 200).

(* ===================================================================== *)
(** * What the driver inherits *)
(* ===================================================================== *)

Module Netmiko.
Import Py.

(** The attributes of the base connection class that the driver reads
    or writes.  [channel] stands for everything else the base class
    keeps: the transport, its buffers and the remaining attributes. *)
Record BaseConnection (Chan : Type) : Type := mkBase {
  username : string;
  base_prompt : string;
  RESPONSE_RETURN : string;
  ansi_escape_codes : bool;
  channel : Chan;
}.
Arguments mkBase {Chan}.
Arguments username {Chan}.
Arguments base_prompt {Chan}.
Arguments RESPONSE_RETURN {Chan}.
Arguments ansi_escape_codes {Chan}.
Arguments channel {Chan}.

Definition set_username {Chan} (v : string) (b : BaseConnection Chan) :=
  mkBase v (base_prompt b) (RESPONSE_RETURN b) (ansi_escape_codes b) (channel b).
Definition set_base_prompt_attr {Chan} (v : string) (b : BaseConnection Chan) :=
  mkBase (username b) v (RESPONSE_RETURN b) (ansi_escape_codes b) (channel b).
Definition set_ansi_escape_codes {Chan} (v : bool) (b : BaseConnection Chan) :=
  mkBase (username b) (base_prompt b) (RESPONSE_RETURN b) v (channel b).

(** The methods of [NoEnable] and [CiscoSSHConnection] that the driver
    calls on [self] or through [super()].  They talk to the device, and
    their code is not in the driver's file: the driver is verified
    against every implementation of this interface.  They act on the
    inherited attributes only. *)
Class Inherited (Chan : Type) : Type := {
  (** [super().__init__] on the keyword arguments *)
  __init__ : gmap string pyval -> exn + BaseConnection Chan;
  (** [self.read_until_pattern(pattern=, read_timeout=)] *)
  read_until_pattern : string -> Q -> M (BaseConnection Chan) string;
  (** [self._test_channel_read(pattern=)] *)
  _test_channel_read : string -> M (BaseConnection Chan) string;
  (** [super().set_base_prompt(pri_prompt_terminator=,
      alt_prompt_terminator=, delay_factor=)] *)
  set_base_prompt : string -> string -> Q -> M (BaseConnection Chan) string;
  (** [super().send_command_timing(command_string=, cmd_verify=, **kwargs)] *)
  send_command_timing :
    string -> bool -> gmap string pyval -> M (BaseConnection Chan) output;
  (** [super().clear_buffer(backoff=, delay_factor=)] *)
  clear_buffer : bool -> option Q -> M (BaseConnection Chan) unit;
}.

(** Modelled from the spec: the shared generic prompt-stripping pass,
    [strip_prompt] of the base connection class, which the driver calls
    through [super()] and whose file is missing.  It is the base
    algorithm of the spec's prompt stripper: split the text into lines
    at the line-terminator sequence, look at the last line only, and
    when the base prompt occurs in it remove that line; otherwise leave
    the text as it is. *)
Definition strip_prompt {Chan} (a_string : string)
    : M (BaseConnection Chan) string :=
  let* RESPONSE_RETURN := get RESPONSE_RETURN in
  let* response_list := lift (str_split a_string RESPONSE_RETURN) in
  let* last_line := lift (index_last response_list) in
  let* base_prompt := get base_prompt in
  if PyStr.contains base_prompt last_line
  then ret (PyStr.join RESPONSE_RETURN (removelast response_list))
  else ret a_string.

End Netmiko.

(* ===================================================================== *)
(** * The driver: class [MikrotikBase] *)
(* ===================================================================== *)

Module Mikrotik.
Import Py.

(** ["\r\n"] *)
Definition CRLF : string := String "013" (String "010" EmptyString).

Section Driver.
Context {Chan : Type} {parent : Netmiko.Inherited Chan}.

(** An object of the class: the inherited attributes and the one the
    class adds. *)
Record MikrotikBase : Type := mkMikrotik {
  inherited : Netmiko.BaseConnection Chan;
  _in_config_mode : bool;
}.

Definition set_inherited (b : Netmiko.BaseConnection Chan) (self : MikrotikBase) :=
  mkMikrotik b (_in_config_mode self).
Definition set_in_config_mode (v : bool) (self : MikrotikBase) :=
  mkMikrotik (inherited self) v.

(** A call of an inherited method on [self]. *)
Definition super {A} (m : M (Netmiko.BaseConnection Chan) A) : M MikrotikBase A :=
  zoom inherited set_inherited m.

(** Attribute access: [self.username], [self.base_prompt],
    [self.RESPONSE_RETURN]. *)
Definition username (self : MikrotikBase) := Netmiko.username (inherited self).
Definition base_prompt (self : MikrotikBase) := Netmiko.base_prompt (inherited self).
Definition RESPONSE_RETURN (self : MikrotikBase) :=
  Netmiko.RESPONSE_RETURN (inherited self).

(** [__init__(self, **kwargs)]: the object it builds, or the
    exception of the inherited constructor. *)
Definition __init__ (kwargs : gmap string pyval) : exn + MikrotikBase :=
  let kwargs :=
    if is_None (dict_get kwargs "default_enter")
    then <["default_enter" := PyStr CRLF]> kwargs
    else kwargs in
  let _in_config_mode := false in
  match Netmiko.__init__ kwargs with
  | inr b => inr (mkMikrotik b _in_config_mode)
  | inl e => inl e
  end.

(** [_modify_connection_params(self)] *)
Definition _modify_connection_params : M MikrotikBase unit :=
  let* username := get username in
  assign (fun self =>
    set_inherited (Netmiko.set_username (username +:+ "+cetw511h4098")
                     (inherited self)) self).

(** [clear_buffer(self, backoff=True, delay_factor=10)] *)
Definition clear_buffer (backoff : option bool) (delay_factor : option (option Q))
    : M MikrotikBase unit :=
  super (Netmiko.clear_buffer (or_default backoff true)
           (or_default delay_factor (Some (10 # 1)))).

(** [disable_paging(self, *args, **kwargs)] *)
Definition disable_paging (args : list pyval) (kwargs : gmap string pyval)
    : M MikrotikBase string :=
  ret EmptyString.

(** [save_config(self, *args, **kwargs)] *)
Definition save_config (args : list pyval) (kwargs : gmap string pyval)
    : M MikrotikBase string :=
  ret EmptyString.

(** [config_mode(self, config_command, pattern, re_flags)]; the defaults
    are the empty string, the empty string and 0. *)
Definition config_mode (config_command pattern : string) (re_flags : Z)
    : M MikrotikBase string :=
  let* _ := assign (set_in_config_mode true) in
  ret EmptyString.

(** [check_config_mode(self, check_string, pattern)]; both default to the
    empty string. *)
Definition check_config_mode (check_string pattern : string)
    : M MikrotikBase bool :=
  get _in_config_mode.

(** [exit_config_mode(self, exit_config=">", pattern)]; [pattern]
    defaults to the empty string. *)
Definition exit_config_mode (exit_config pattern : string)
    : M MikrotikBase string :=
  let* _ := assign (set_in_config_mode false) in
  ret EmptyString.

(** [strip_prompt(self, a_string)] *)
Definition strip_prompt (a_string : string) : M MikrotikBase string :=
  let* RESPONSE_RETURN := get RESPONSE_RETURN in
  let* response_list := lift (str_split a_string RESPONSE_RETURN) in
  let* last_line := lift (index_last response_list) in
  let* base_prompt := get base_prompt in
  if PyStr.contains base_prompt last_line then
    let a_string := PyStr.join RESPONSE_RETURN (removelast response_list) in
    let a_string := PyStr.rstrip a_string in
    let* a_string := super (Netmiko.strip_prompt a_string) in
    ret (PyStr.strip a_string)
  else
    ret a_string.

(** [set_base_prompt(self, pri_prompt_terminator=">",
    alt_prompt_terminator=">", delay_factor=1.0)] *)
Definition set_base_prompt (pri_prompt_terminator alt_prompt_terminator : string)
    (delay_factor : Q) : M MikrotikBase string :=
  let* prompt := super (Netmiko.set_base_prompt pri_prompt_terminator
                     alt_prompt_terminator delay_factor) in
  let prompt := PyStr.strip prompt in
  let* _ := assign (fun self =>
    set_inherited (Netmiko.set_base_prompt_attr prompt (inherited self)) self) in
  get base_prompt.

(** [session_preparation(self, *args, **kwargs)] *)
Definition session_preparation (args : list pyval) (kwargs : gmap string pyval)
    : M MikrotikBase unit :=
  let* _ := assign (fun self =>
    set_inherited (Netmiko.set_ansi_escape_codes true (inherited self)) self) in
  let* _ := super (Netmiko._test_channel_read "[\]>]") in
  let* _ := set_base_prompt ">" ">" (1 # 1) in
  ret tt.

(** [send_command_timing(self, command_string, cmd_verify=True,
    **kwargs)] *)
Definition send_command_timing (command_string : string)
    (cmd_verify : option bool) (kwargs : gmap string pyval)
    : M MikrotikBase output :=
  super (Netmiko.send_command_timing command_string
           (or_default cmd_verify true) kwargs).

(** [command_echo_read(self, cmd, read_timeout)] *)
Definition command_echo_read (cmd : string) (read_timeout : Q)
    : M MikrotikBase string :=
  let* _ := super (Netmiko.read_until_pattern (PyStr.re_escape cmd) read_timeout) in
  let* _ := try_except
    (let* _ := super (Netmiko.read_until_pattern (PyStr.re_escape cmd) (3 # 2)) in
     ret tt)
    is_ReadTimeout
    (ret tt) in
  ret cmd.

End Driver.
Arguments MikrotikBase Chan : clear implicits.

End Mikrotik.

(* ===================================================================== *)
(** * A simulated device *)
(* ===================================================================== *)

(** An implementation of the inherited interface over a scripted
    transport, on which the statements below are run.  The transport is
    the list of the chunks of text the device is still going to send, each
    with the time that passes before it arrives. *)
Module SimDevice.
Import Py.

Definition Chan : Type := list (Q * string).

Definition set_channel (ch : Chan) (b : Netmiko.BaseConnection Chan) :=
  Netmiko.mkBase (Netmiko.username b) (Netmiko.base_prompt b)
    (Netmiko.RESPONSE_RETURN b) (Netmiko.ansi_escape_codes b) ch.

(** Reads chunks until the literal text [lit] has been seen or the next
    chunk would arrive after the timeout. *)
Fixpoint read_loop (lit : string) (elapsed timeout : Q) (output : string)
    (pending : Chan) : (exn + string) * Chan :=
  if PyStr.contains lit output then (inr output, pending)
  else match pending with
       | [] => (inl (ReadTimeout lit), [])
       | (delay, chunk) :: rest =>
           if Qle_bool (elapsed + delay) timeout
           then read_loop lit (elapsed + delay) timeout (output +:+ chunk) rest
           else (inl (ReadTimeout lit),
                 (elapsed + delay - timeout, chunk)%Q :: rest)
       end.

(** Modelled from the spec: the transport's [readUntilPattern(pattern,
    timeout) -> text], which fails with [ReadTimeout] when the pattern is
    not observed within the timeout.  Patterns that are escaped literal
    text are the only ones the simulation knows. *)
Definition read_until_pattern (pattern : string) (read_timeout : Q)
    : M (Netmiko.BaseConnection Chan) string :=
  fun b =>
    match PyStr.pattern_literal pattern with
    | None => (inl (Raised "NotImplementedError" pattern), b)
    | Some lit =>
        let (r, ch) := read_loop lit 0 read_timeout EmptyString (Netmiko.channel b) in
        (r, set_channel ch b)
    end.

(** Modelled from the spec: the generic prompt derivation, which reads
    the prompt text the device prints, stores it as the base prompt and
    returns it; it times out when the device prints nothing. *)
Definition set_base_prompt (pri alt : string) (delay_factor : Q)
    : M (Netmiko.BaseConnection Chan) string :=
  fun b =>
    match Netmiko.channel b with
    | [] => (inl (ReadTimeout pri), b)
    | (_, prompt) :: rest =>
        (inr prompt, Netmiko.set_base_prompt_attr prompt (set_channel rest b))
    end.

(** The attribute values of a new connection: the user name of the
    keyword arguments, no prompt yet, lines of the output ending in a
    line feed, nothing to read. *)
Definition __init__ (kwargs : gmap string pyval)
    : exn + Netmiko.BaseConnection Chan :=
  match dict_get kwargs "username" with
  | PyStr user =>
      inr (Netmiko.mkBase user EmptyString (String "010" EmptyString) false [])
  | _ => inl (ValueError "username")
  end.

#[global] Instance device : Netmiko.Inherited Chan := {|
  Netmiko.__init__ := __init__;
  Netmiko.read_until_pattern := read_until_pattern;
  Netmiko._test_channel_read := fun pattern => ret EmptyString;
  Netmiko.set_base_prompt := set_base_prompt;
  Netmiko.send_command_timing := fun command_string cmd_verify kwargs =>
    ret (OutStr (if cmd_verify then EmptyString else command_string));
  Netmiko.clear_buffer := fun backoff delay_factor => ret tt;
|}.

(** A session on the simulated device with the given prompt and pending
    chunks. *)
Definition session (prompt : string) (pending : Chan) : Mikrotik.MikrotikBase Chan :=
  Mikrotik.mkMikrotik
    (Netmiko.mkBase "admin+cetw511h4098" prompt (String "010" EmptyString) true pending)
    false.

End SimDevice.

(** The texts and transports of the examples. *)
Module Scenario.

(** ["\n"] *)
Definition LF : string := String "010" EmptyString.

Definition prompt : string := "[admin@MikroTik] >".

Definition ping : string := "ping count=5 1.0.0.1".

(** The device echoes the command, and the output follows two time
    units later. *)
Definition echoed_once : SimDevice.Chan :=
  [((1 # 10)%Q, ping); ((2 # 1)%Q, "  SEQ HOST  SIZE TTL TIME  STATUS")].

(** The device echoes the command and repaints the line with the prompt
    and the command. *)
Definition echoed_twice : SimDevice.Chan :=
  [((1 # 10)%Q, ping); ((1 # 10)%Q, "[admin@MikroTik] > " +:+ ping);
   ((2 # 1)%Q, "  SEQ HOST  SIZE TTL TIME  STATUS")].

(** Output of two lines, then the prompt: once, twice. *)
Definition body_lines : list string :=
  ["  SEQ HOST  SIZE TTL TIME  STATUS"; "    0 1.0.0.1  56  60 23ms"].

Definition one_prompt : string := PyStr.join LF (body_lines ++ [prompt]).

Definition two_prompts : string := PyStr.join LF (body_lines ++ [prompt; prompt]).

(** Output in which the repainted command line, prompt included, comes
    first. *)
Definition repainted_lines : list string :=
  ["[admin@MikroTik] > " +:+ ping; "    0 1.0.0.1  56  60 23ms"].

(** Output whose last line before the prompt is the prompt as the
    device prints it, with a space after it. *)
Definition spaced_lines : list string :=
  ["    0 1.0.0.1  56  60 23ms"; "[admin@MikroTik] > "].

End Scenario.

(* ===================================================================== *)
(** * A scripted device, and sequences of calls *)
(* ===================================================================== *)

(** A second implementation of the inherited interface, for outcomes the
    simulated device cannot produce: every inherited call that talks to
    the device takes the next scripted outcome, a text or an exception. *)
Module Scripted.
Import Py.

Definition Chan : Type := list (exn + string).

Definition set_channel (ch : Chan) (b : Netmiko.BaseConnection Chan) :=
  Netmiko.mkBase (Netmiko.username b) (Netmiko.base_prompt b)
    (Netmiko.RESPONSE_RETURN b) (Netmiko.ansi_escape_codes b) ch.

(** The next scripted outcome; a timeout when the script is over. *)
Definition next : M (Netmiko.BaseConnection Chan) string :=
  fun b =>
    match Netmiko.channel b with
    | [] => (inl (ReadTimeout "end of script"), b)
    | outcome :: rest => (outcome, set_channel rest b)
    end.

Definition device : Netmiko.Inherited Chan := {|
  Netmiko.__init__ := fun kwargs => inl (Raised "ConnectionRefusedError" "scripted");
  Netmiko.read_until_pattern := fun pattern read_timeout => next;
  Netmiko._test_channel_read := fun pattern => next;
  Netmiko.set_base_prompt := fun pri alt delay_factor =>
    let* prompt := next in
    let* _ := assign (Netmiko.set_base_prompt_attr prompt) in
    ret prompt;
  Netmiko.send_command_timing := fun command_string cmd_verify kwargs =>
    let* text := next in ret (OutStr text);
  Netmiko.clear_buffer := fun backoff delay_factor => ret tt;
|}.

(** A session on the scripted device. *)
Definition session (prompt RESPONSE_RETURN : string) (script : Chan)
    : Mikrotik.MikrotikBase Chan :=
  Mikrotik.mkMikrotik
    (Netmiko.mkBase "admin+cetw511h4098" prompt RESPONSE_RETURN true script)
    false.

End Scripted.

(** Sequences of calls of the two configuration-mode methods. *)
Module Usage.
Import Py.

(** One call of [config_mode] or of [exit_config_mode], with its
    arguments. *)
Inductive mode_call : Type :=
| Enter (config_command pattern : string) (re_flags : Z)
| Leave (exit_config pattern : string).

Definition is_enter (c : mode_call) : bool :=
  match c with Enter _ _ _ => true | Leave _ _ => false end.

Section Calls.
Context {Chan : Type}.

Definition call (c : mode_call) : M (Mikrotik.MikrotikBase Chan) string :=
  match c with
  | Enter config_command pattern re_flags =>
      Mikrotik.config_mode config_command pattern re_flags
  | Leave exit_config pattern => Mikrotik.exit_config_mode exit_config pattern
  end.

(** The calls of [cs], one after the other. *)
Fixpoint calls (cs : list mode_call) : M (Mikrotik.MikrotikBase Chan) unit :=
  match cs with
  | [] => ret tt
  | c :: rest => let* _ := call c in calls rest
  end.

End Calls.

(** Every character of [s] is whitespace. *)
Fixpoint all_space (s : string) : bool :=
  match s with
  | EmptyString => true
  | String c s' => PyStr.isspace c && all_space s'
  end.

End Usage.

(* ===================================================================== *)
(** * Facts about the string operations *)
(* ===================================================================== *)

Module PyStrFacts.
Import PyStr.

Lemma app_cons (c : ascii) (s t : string) :
  String c s +:+ t = String c (s +:+ t).
Proof. reflexivity. Qed.

Lemma app_nil_l (s : string) : EmptyString +:+ s = s.
Proof. reflexivity. Qed.

Lemma app_nil_r (s : string) : s +:+ EmptyString = s.
Proof.
  induction s as [|x t IH]; [reflexivity | now rewrite app_cons, IH].
Qed.

Lemma app_assoc (a b c : string) : (a +:+ b) +:+ c = a +:+ (b +:+ c).
Proof.
  induction a as [|x t IH]; [reflexivity | now rewrite !app_cons, IH].
Qed.

Lemma length_app (a b : string) :
  String.length (a +:+ b) = String.length a + String.length b.
Proof.
  induction a as [|x t IH]; [reflexivity|].
  rewrite app_cons. cbn [String.length]. now rewrite IH.
Qed.

(** ** [re.escape] produces a literal *)

(** A special character is no letter or digit, and a character that is
    not special is neither the backslash nor a metacharacter. *)
Lemma special_chars_cover (c : ascii) :
  if is_special c then is_alnum c = false
  else Ascii.eqb c "\" = false /\ is_metachar c = false.
Proof.
  destruct c as [[] [] [] [] [] [] [] []]; vm_compute; auto.
Qed.

Lemma pattern_literal_re_escape (s : string) :
  pattern_literal (re_escape s) = Some s.
Proof.
  induction s as [|c s0 IH]; [reflexivity|].
  cbn [re_escape]. pose proof (special_chars_cover c) as Hc.
  destruct (is_special c).
  - cbn [pattern_literal]. rewrite Hc, IH. reflexivity.
  - destruct Hc as [Hb Hm]. cbn [pattern_literal]. rewrite Hb, Hm, IH.
    reflexivity.
Qed.

(** ** Trimming *)

Lemma rstrip_idem (s : string) : rstrip (rstrip s) = rstrip s.
Proof.
  induction s as [|c s0 IH]; [reflexivity|].
  cbn [rstrip]. destruct (is_empty (rstrip s0) && isspace c) eqn:E;
    [reflexivity|].
  cbn [rstrip]. rewrite IH, E. reflexivity.
Qed.

Lemma lstrip_rstrip (s : string) : lstrip (rstrip s) = rstrip (lstrip s).
Proof.
  induction s as [|c s0 IH]; [reflexivity|].
  cbn [lstrip rstrip]. destruct (isspace c) eqn:Ec.
  - rewrite <- IH. destruct (rstrip s0) as [|d r]; [reflexivity|].
    cbn [is_empty andb lstrip]. now rewrite Ec.
  - rewrite andb_false_r. cbn [lstrip rstrip]. rewrite Ec, andb_false_r.
    reflexivity.
Qed.

Lemma lstrip_idem (s : string) : lstrip (lstrip s) = lstrip s.
Proof.
  induction s as [|c s0 IH]; [reflexivity|].
  cbn [lstrip]. destruct (isspace c) eqn:Ec; [exact IH|].
  cbn [lstrip]. now rewrite Ec.
Qed.

Lemma strip_idem (s : string) : strip (strip s) = strip s.
Proof.
  unfold strip. now rewrite lstrip_rstrip, lstrip_idem, rstrip_idem.
Qed.

Lemma strip_rstrip (s : string) : strip (rstrip s) = strip s.
Proof. unfold strip. now rewrite lstrip_rstrip, rstrip_idem. Qed.

Lemma rstrip_strip (s : string) : rstrip (strip s) = strip s.
Proof. unfold strip. apply rstrip_idem. Qed.

(** The last character of a right-trimmed string is no whitespace. *)
Lemma rstrip_last (s t : string) (c : ascii) :
  rstrip s = t +:+ String c EmptyString -> isspace c = false.
Proof.
  revert t. induction s as [|d s0 IH]; intros t H.
  - destruct t; discriminate.
  - cbn [rstrip] in H.
    destruct (is_empty (rstrip s0) && isspace d) eqn:E.
    + destruct t; discriminate.
    + destruct t as [|x t].
      * rewrite app_nil_l in H. injection H as -> Hr. rewrite Hr in E.
        exact E.
      * rewrite app_cons in H. injection H as _ Hr. exact (IH _ Hr).
Qed.

Lemma lstrip_strip (s : string) : lstrip (strip s) = strip s.
Proof. unfold strip. now rewrite lstrip_rstrip, lstrip_idem. Qed.

(** Trimming on the right leaves a text that ends in a non-empty
    right-trimmed text as it is. *)
Lemma rstrip_app_keep (x p : string) :
  p <> EmptyString -> rstrip p = p -> rstrip (x +:+ p) = x +:+ p.
Proof.
  intros Hne Hp. induction x as [|c x IH]; [exact Hp|].
  rewrite app_cons. cbn [rstrip]. rewrite IH.
  destruct (x +:+ p) as [|d r] eqn:E; [|reflexivity].
  destruct x; [rewrite app_nil_l in E; contradiction | discriminate].
Qed.

Lemma lstrip_suffix (s : string) : exists a, s = a +:+ lstrip s.
Proof.
  induction s as [|c s0 [a IH]]; [now exists EmptyString|].
  cbn [lstrip]. destruct (isspace c).
  - exists (String c a). now rewrite app_cons, <- IH.
  - now exists EmptyString.
Qed.

Lemma rstrip_prefix (s : string) : exists b, s = rstrip s +:+ b.
Proof.
  induction s as [|c s0 [b IH]]; [now exists EmptyString|].
  cbn [rstrip]. destruct (is_empty (rstrip s0) && isspace c).
  - now exists (String c s0).
  - exists b. now rewrite app_cons, <- IH.
Qed.

Lemma strip_substring (s : string) : exists a b, s = a +:+ strip s +:+ b.
Proof.
  destruct (lstrip_suffix s) as [a Ha].
  destruct (rstrip_prefix (lstrip s)) as [b Hb].
  exists a, b. unfold strip. now rewrite <- Hb.
Qed.

(** ** Prefixes and occurrences *)

Lemma startswith_app (p t : string) : startswith p (p +:+ t) = true.
Proof.
  induction p as [|a p IH]; [reflexivity|].
  rewrite app_cons. cbn [startswith]. now rewrite Ascii.eqb_refl, IH.
Qed.

Lemma startswith_refl (p : string) : startswith p p = true.
Proof. rewrite <- (app_nil_r p) at 2. apply startswith_app. Qed.

Lemma startswith_inv (p s : string) :
  startswith p s = true -> exists t, s = p +:+ t.
Proof.
  revert s. induction p as [|a p IH]; intros s H.
  - now exists s.
  - destruct s as [|b s]; [discriminate|]. cbn [startswith] in H.
    apply andb_prop in H as [Hab Hp]. apply Ascii.eqb_eq in Hab as ->.
    destruct (IH _ Hp) as [t ->]. now exists t.
Qed.

(** Whether [p] is a prefix is decided by the first [length p]
    characters. *)
Lemma startswith_app_long (p u x : string) :
  String.length p <= String.length u ->
  startswith p (u +:+ x) = startswith p u.
Proof.
  revert u. induction p as [|a p IH]; intros u Hlen; [reflexivity|].
  destruct u as [|b u]; [cbn in Hlen; lia|].
  rewrite app_cons. cbn [startswith]. f_equal. apply IH.
  cbn in Hlen. lia.
Qed.

Lemma drop_app (p t : string) : drop (String.length p) (p +:+ t) = t.
Proof. induction p as [|a p IH]; [now destruct t | exact IH]. Qed.

Lemma contains_intro (p a b : string) : contains p (a +:+ p +:+ b) = true.
Proof.
  induction a as [|c a IH].
  - rewrite app_nil_l. destruct (p +:+ b) eqn:E; cbn [contains];
      rewrite <- E, startswith_app; reflexivity.
  - rewrite app_cons. cbn [contains]. rewrite IH. apply orb_true_r.
Qed.

Lemma contains_inv (p s : string) :
  contains p s = true -> exists a b, s = a +:+ p +:+ b.
Proof.
  induction s as [|c s0 IH]; cbn [contains]; intros H.
  - rewrite orb_false_r in H. destruct (startswith_inv _ _ H) as [t Ht].
    now exists EmptyString, t.
  - apply orb_prop in H as [H|H].
    + destruct (startswith_inv _ _ H) as [t Ht]. now exists EmptyString, t.
    + destruct (IH H) as (a & b & ->). now exists (String c a), b.
Qed.

Lemma contains_refl (p : string) : contains p p = true.
Proof.
  destruct p; cbn [contains]; [reflexivity|].
  now rewrite startswith_refl.
Qed.

(** A text without an occurrence of [p] has no part with one. *)
Lemma contains_false_sub (p a m b : string) :
  contains p (a +:+ m +:+ b) = false -> contains p m = false.
Proof.
  intros H. destruct (contains p m) eqn:E; [|reflexivity].
  destruct (contains_inv _ _ E) as (a' & b' & ->).
  rewrite <- H. symmetry.
  replace (a +:+ (a' +:+ p +:+ b') +:+ b)
    with ((a +:+ a') +:+ p +:+ (b' +:+ b))
    by now rewrite !app_assoc.
  apply contains_intro.
Qed.

(** ** Splitting and joining *)

Lemma startswith_drop (p s : string) :
  startswith p s = true -> s = p +:+ drop (String.length p) s.
Proof.
  intros H. destruct (startswith_inv _ _ H) as [t ->].
  now rewrite drop_app.
Qed.

Lemma find_sep_Some (sep s before after : string) :
  find_sep sep s = Some (before, after) -> s = before +:+ sep +:+ after.
Proof.
  revert before. induction s as [|c s0 IH]; intros before H; cbn [find_sep] in H.
  - destruct (startswith sep EmptyString) eqn:E; [|discriminate].
    injection H as <- <-. now apply startswith_drop.
  - destruct (startswith sep (String c s0)) eqn:E.
    + injection H as <- <-. now apply startswith_drop.
    + destruct (find_sep sep s0) as [[b a]|]; [|discriminate].
      injection H as <- <-. rewrite app_cons. f_equal. now apply IH.
Qed.

Lemma find_sep_shorter (sep s before after : string) :
  sep <> EmptyString -> find_sep sep s = Some (before, after) ->
  String.length after < String.length s.
Proof.
  intros Hne H. apply find_sep_Some in H as ->.
  rewrite !length_app. destruct sep; [contradiction|]. cbn. lia.
Qed.

(** Further rounds than the length of the text change nothing. *)
Lemma split_rounds_enough (sep : string) (n m : nat) (s : string) :
  sep <> EmptyString -> String.length s <= n -> String.length s <= m ->
  split_rounds n sep s = split_rounds m sep s.
Proof.
  intros Hne. revert m s. induction n as [|n IH]; intros m s Hn Hm.
  - destruct s; [|cbn in Hn; lia]. destruct m; cbn [split_rounds find_sep];
      destruct sep; try contradiction; reflexivity.
  - destruct m as [|m].
    + destruct s; [|cbn in Hm; lia]. cbn [split_rounds find_sep].
      destruct sep; try contradiction; reflexivity.
    + cbn [split_rounds]. destruct (find_sep sep s) as [[b a]|] eqn:E;
        [|reflexivity].
      pose proof (find_sep_shorter _ _ _ _ Hne E). f_equal. apply IH; lia.
Qed.

(** The equation of [split]: cut at the leftmost separator and split
    what follows it. *)
Lemma split_lines_eq (sep s : string) :
  sep <> EmptyString ->
  split_lines sep s
  = match find_sep sep s with
    | None => [s]
    | Some (before, after) => before :: split_lines sep after
    end.
Proof.
  intros Hne. unfold split_lines.
  destruct (find_sep sep s) as [[b a]|] eqn:E.
  - pose proof (find_sep_shorter _ _ _ _ Hne E) as Hlt.
    destruct (String.length s) as [|n] eqn:El; [lia|].
    cbn [split_rounds]. rewrite E. f_equal.
    apply split_rounds_enough; [assumption | lia | lia].
  - destruct (String.length s); cbn [split_rounds]; now rewrite E.
Qed.

Lemma split_lines_nonempty (sep s : string) : split_lines sep s <> [].
Proof.
  unfold split_lines. destruct (String.length s); cbn [split_rounds];
    destruct (find_sep sep s) as [[b a]|]; discriminate.
Qed.

Lemma join_cons (sep x : string) (ls : list string) :
  ls <> [] -> join sep (x :: ls) = x +:+ sep +:+ join sep ls.
Proof. destruct ls; [contradiction | reflexivity]. Qed.

(** [sep.join(s.split(sep))] is [s]. *)
Lemma join_split_lines (sep s : string) :
  sep <> EmptyString -> join sep (split_lines sep s) = s.
Proof.
  intros Hne. remember (String.length s) as n eqn:Hn.
  revert s Hn. induction n as [n IH] using lt_wf_ind. intros s ->.
  rewrite split_lines_eq by assumption.
  destruct (find_sep sep s) as [[b a]|] eqn:E; [|reflexivity].
  rewrite join_cons by apply split_lines_nonempty.
  rewrite (IH _ (find_sep_shorter _ _ _ _ Hne E) a eq_refl).
  symmetry. now apply find_sep_Some.
Qed.

(** The leftmost separator stays the leftmost one when the text after
    it is replaced. *)
Lemma find_sep_stable (sep before after after' : string) :
  find_sep sep (before +:+ sep +:+ after) = Some (before, after) ->
  find_sep sep (before +:+ sep +:+ after') = Some (before, after').
Proof.
  induction before as [|c b IH]; intros H.
  - rewrite app_nil_l. destruct (sep +:+ after') eqn:E; cbn [find_sep];
      rewrite <- E, startswith_app, drop_app; reflexivity.
  - rewrite app_cons in *. cbn [find_sep] in *.
    assert (Hlong : forall x, startswith sep (String c (b +:+ sep +:+ x))
                              = startswith sep (String c (b +:+ sep))).
    { intros x. rewrite <- app_cons, <- app_assoc, <- app_cons.
      apply startswith_app_long. rewrite app_cons. cbn [String.length].
      rewrite length_app. lia. }
    rewrite Hlong in *.
    destruct (startswith sep (String c (b +:+ sep))); [discriminate|].
    destruct (find_sep sep (b +:+ sep +:+ after)) as [[b0 a0]|] eqn:E;
      [|discriminate].
    injection H as -> ->. now rewrite IH.
Qed.

(** There is no separator in the text before the leftmost one. *)
Lemma find_sep_before (sep s before after : string) :
  sep <> EmptyString -> find_sep sep s = Some (before, after) ->
  find_sep sep before = None.
Proof.
  intros Hne. revert before. induction s as [|c s0 IH]; intros before H;
    cbn [find_sep] in H.
  - destruct sep; [contradiction | discriminate].
  - destruct (startswith sep (String c s0)) eqn:E.
    + injection H as <- <-. destruct sep; [contradiction | reflexivity].
    + destruct (find_sep sep s0) as [[b a]|] eqn:E0; [|discriminate].
      injection H as <- <-. cbn [find_sep]. rewrite (IH _ eq_refl).
      destruct (startswith sep (String c b)) eqn:Eb; [|reflexivity].
      apply find_sep_Some in E0 as ->. rewrite <- app_cons in E.
      pose proof (startswith_inv _ _ Eb) as [t Ht].
      rewrite Ht, app_assoc, startswith_app in E. discriminate.
Qed.

(** Dropping the last line of a text and splitting again gives the same
    lines but the last. *)
Lemma split_lines_drop_last (sep s x : string) (ls : list string) :
  sep <> EmptyString -> ls <> [] ->
  split_lines sep s = ls ++ [x] ->
  split_lines sep (join sep ls) = ls.
Proof.
  intros Hne. revert s. induction ls as [|l ls IH]; intros s Hls H;
    [contradiction|].
  rewrite split_lines_eq in H by assumption.
  destruct (find_sep sep s) as [[b a]|] eqn:E.
  - injection H as -> Ha. destruct ls as [|l' ls].
    + cbn [join]. rewrite split_lines_eq by assumption.
      now rewrite (find_sep_before _ _ _ _ Hne E).
    + rewrite join_cons by discriminate.
      rewrite split_lines_eq by assumption.
      pose proof (find_sep_Some _ _ _ _ E) as Hs. rewrite Hs in E.
      rewrite (find_sep_stable _ _ _ _ E). f_equal.
      apply (IH a); [discriminate | exact Ha].
  - destruct ls; discriminate.
Qed.

Lemma join_snoc (sep x : string) (ls : list string) :
  ls <> [] -> join sep (ls ++ [x]) = join sep ls +:+ sep +:+ x.
Proof.
  induction ls as [|l ls IH]; intros Hne; [contradiction|].
  destruct ls as [|l' ls]; [reflexivity|].
  change ((l :: l' :: ls) ++ [x]) with (l :: ((l' :: ls) ++ [x])).
  rewrite !join_cons by (try discriminate; now destruct ls).
  rewrite IH by discriminate. now rewrite !app_assoc.
Qed.

End PyStrFacts.

(* ===================================================================== *)
(** * The driver's methods, for every implementation of what it inherits *)
(* ===================================================================== *)

Import Py.

(** Unfolds the monad of method bodies. *)
Ltac run :=
  unfold Mikrotik.super, zoom, bind, try_except, get, assign, lift, ret, raise in *;
  cbn beta iota in *.

Section Methods.
Context {Chan : Type} {parent : Netmiko.Inherited Chan}.
Implicit Types (self : Mikrotik.MikrotikBase Chan) (kwargs : gmap string pyval).

(** C7. The connection-parameter step appends the thirteen characters
    [+cetw511h4098] to the user name, whatever the user name is, and
    changes nothing else; the user name [admin] becomes
    [admin+cetw511h4098]. *)
Theorem modify_connection_params_appends_suffix self :
  let self' := snd (Mikrotik._modify_connection_params self) in
  fst (Mikrotik._modify_connection_params self) = inr tt
  /\ Mikrotik.username self' = Mikrotik.username self +:+ "+cetw511h4098"
  /\ String.length (Mikrotik.username self')
     = String.length (Mikrotik.username self) + 13
  /\ Mikrotik.base_prompt self' = Mikrotik.base_prompt self
  /\ Mikrotik.RESPONSE_RETURN self' = Mikrotik.RESPONSE_RETURN self
  /\ Netmiko.ansi_escape_codes (Mikrotik.inherited self')
     = Netmiko.ansi_escape_codes (Mikrotik.inherited self)
  /\ Netmiko.channel (Mikrotik.inherited self')
     = Netmiko.channel (Mikrotik.inherited self)
  /\ Mikrotik._in_config_mode self' = Mikrotik._in_config_mode self
  /\ forall prompt rr ansi (ch : Chan) flag,
       Mikrotik.username
         (snd (Mikrotik._modify_connection_params
                 (Mikrotik.mkMikrotik (Netmiko.mkBase "admin" prompt rr ansi ch) flag)))
       = "admin+cetw511h4098".
Proof.
  cbn zeta. unfold Mikrotik._modify_connection_params. run. cbn.
  repeat split; try reflexivity.
  unfold Mikrotik.username. cbn. rewrite PyStrFacts.length_app. reflexivity.
Qed.

(** C8. [config_mode] sets the flag and returns the empty string,
    [exit_config_mode] clears it and returns the empty string,
    [check_config_mode] returns the flag; none of them touches the
    inherited part of the session, where the transport lives; so
    [check_config_mode] answers [True] after [config_mode] and [False]
    after [exit_config_mode]. *)
Theorem config_mode_is_a_local_flag self
    (config_command pattern exit_config check_string : string) (re_flags : Z) :
  Mikrotik.config_mode config_command pattern re_flags self
    = (inr EmptyString, Mikrotik.mkMikrotik (Mikrotik.inherited self) true)
  /\ Mikrotik.exit_config_mode exit_config pattern self
    = (inr EmptyString, Mikrotik.mkMikrotik (Mikrotik.inherited self) false)
  /\ Mikrotik.check_config_mode check_string pattern self
    = (inr (Mikrotik._in_config_mode self), self)
  /\ (let* _ := Mikrotik.config_mode config_command pattern re_flags in
      Mikrotik.check_config_mode check_string pattern) self
    = (inr true, Mikrotik.mkMikrotik (Mikrotik.inherited self) true)
  /\ (let* _ := Mikrotik.exit_config_mode exit_config pattern in
      Mikrotik.check_config_mode check_string pattern) self
    = (inr false, Mikrotik.mkMikrotik (Mikrotik.inherited self) false).
Proof. repeat split; destruct self; reflexivity. Qed.

(** C9. [disable_paging] and [save_config] return the empty string for
    all arguments, cannot raise, and leave the whole session, transport
    included, as it was. *)
Theorem disable_paging_save_config_noop self (args : list pyval) kwargs :
  Mikrotik.disable_paging args kwargs self = (inr EmptyString, self)
  /\ Mikrotik.save_config args kwargs self = (inr EmptyString, self).
Proof. split; reflexivity. Qed.

(** C10. A session that the constructor has built has its config-mode
    flag cleared, so [check_config_mode] answers [False] on it; its
    inherited part comes from the inherited constructor, which received
    the caller's keyword arguments, with [default_enter] set to carriage
    return and line feed when the caller gave none (or gave [None]), and
    untouched when the caller gave one. *)
Theorem init_config_mode_false kwargs self :
  Mikrotik.__init__ kwargs = inr self ->
  Mikrotik._in_config_mode self = false
  /\ (forall check_string pattern,
        Mikrotik.check_config_mode check_string pattern self = (inr false, self))
  /\ exists kwargs',
       Netmiko.__init__ kwargs' = inr (Mikrotik.inherited self)
       /\ (dict_get kwargs "default_enter" = PyNone ->
           kwargs' = <["default_enter" := PyStr (String "013" (String "010" EmptyString))]> kwargs)
       /\ (dict_get kwargs "default_enter" <> PyNone -> kwargs' = kwargs).
Proof.
  unfold Mikrotik.__init__. intros H.
  destruct (Netmiko.__init__ _) as [e|b] eqn:Hb; [discriminate|].
  injection H as <-. split; [reflexivity|]. split; [reflexivity|].
  eexists. split; [exact Hb|]. cbn [Mikrotik.inherited].
  split; intros Hd.
  - rewrite Hd. reflexivity.
  - destruct (dict_get kwargs "default_enter"); try reflexivity.
    now contradiction Hd.
Qed.

(** C5 (what the code does). The timed send hands the caller's
    [cmd_verify] to the generic implementation as it came: [True] only
    when the caller gave none, and [False] when the caller passed
    [False]. *)
Theorem send_command_timing_passes_cmd_verify self (command_string : string) kwargs :
  Mikrotik.send_command_timing command_string (Some false) kwargs self
    = Mikrotik.super (Netmiko.send_command_timing command_string false kwargs) self
  /\ Mikrotik.send_command_timing command_string (Some true) kwargs self
    = Mikrotik.super (Netmiko.send_command_timing command_string true kwargs) self
  /\ Mikrotik.send_command_timing command_string None kwargs self
    = Mikrotik.super (Netmiko.send_command_timing command_string true kwargs) self.
Proof. repeat split; reflexivity. Qed.

(** C1. When the first read of the echo succeeds and the second read,
    the probe for a repainted line, either succeeds or times out,
    [command_echo_read] returns [cmd] itself and nothing of what the two
    reads returned.  Both reads are given the pattern [re.escape(cmd)],
    which as a regular expression is the literal text [cmd]: no
    character of [cmd] acts as a wildcard. *)
Theorem command_echo_read_returns_cmd self (cmd : string) (read_timeout : Q)
    (out1 : string) (b1 b2 : Netmiko.BaseConnection Chan) (r2 : exn + string) :
  Netmiko.read_until_pattern (PyStr.re_escape cmd) read_timeout
    (Mikrotik.inherited self) = (inr out1, b1) ->
  Netmiko.read_until_pattern (PyStr.re_escape cmd) (3 # 2) b1 = (r2, b2) ->
  ((exists out2, r2 = inr out2) \/ (exists msg, r2 = inl (ReadTimeout msg))) ->
  Mikrotik.command_echo_read cmd read_timeout self
    = (inr cmd, Mikrotik.set_inherited b2 self)
  /\ PyStr.pattern_literal (PyStr.re_escape cmd) = Some cmd.
Proof.
  intros H1 H2 Hr2. split; [|apply PyStrFacts.pattern_literal_re_escape].
  unfold Mikrotik.command_echo_read. run. rewrite H1. cbn.
  rewrite H2. destruct Hr2 as [[out2 ->] | [msg ->]]; reflexivity.
Qed.

(** C2. An exception of the first read, a [ReadTimeout] in particular,
    leaves [command_echo_read] as it was raised.  A [ReadTimeout] of the
    second read, which is always made with the timeout 1.5 whatever
    [read_timeout] is, is caught: the call returns [cmd]. *)
Theorem command_echo_read_timeouts self (cmd : string) (read_timeout : Q) :
  (forall e b1,
      Netmiko.read_until_pattern (PyStr.re_escape cmd) read_timeout
        (Mikrotik.inherited self) = (inl e, b1) ->
      Mikrotik.command_echo_read cmd read_timeout self
        = (inl e, Mikrotik.set_inherited b1 self))
  /\ (forall out1 b1 msg b2,
      Netmiko.read_until_pattern (PyStr.re_escape cmd) read_timeout
        (Mikrotik.inherited self) = (inr out1, b1) ->
      Netmiko.read_until_pattern (PyStr.re_escape cmd) (3 # 2) b1
        = (inl (ReadTimeout msg), b2) ->
      Mikrotik.command_echo_read cmd read_timeout self
        = (inr cmd, Mikrotik.set_inherited b2 self)).
Proof.
  split.
  - intros e b1 H1. unfold Mikrotik.command_echo_read. run.
    rewrite H1. reflexivity.
  - intros out1 b1 msg b2 H1 H2. unfold Mikrotik.command_echo_read. run.
    rewrite H1. cbn. rewrite H2. reflexivity.
Qed.

(** C6. When the generic derivation returns the prompt [P],
    [set_base_prompt] stores [P.strip()] as the base prompt and returns
    it.  The stored prompt has no whitespace at its end (nor at its
    start), trimming it again changes nothing, and a further call in
    which the generic derivation returns [P] again stores the same
    value. *)
Theorem set_base_prompt_stores_trimmed self (pri alt : string) (delay_factor : Q)
    (P : string) (b1 : Netmiko.BaseConnection Chan) :
  Netmiko.set_base_prompt pri alt delay_factor (Mikrotik.inherited self)
    = (inr P, b1) ->
  let stored := PyStr.strip P in
  let self1 :=
    Mikrotik.set_inherited (Netmiko.set_base_prompt_attr stored b1) self in
  Mikrotik.set_base_prompt pri alt delay_factor self = (inr stored, self1)
  /\ Mikrotik.base_prompt self1 = stored
  /\ (forall t c, stored = t +:+ String c EmptyString -> PyStr.isspace c = false)
  /\ PyStr.rstrip stored = stored
  /\ PyStr.lstrip stored = stored
  /\ PyStr.strip stored = stored
  /\ (forall pri' alt' delay_factor' b2,
        Netmiko.set_base_prompt pri' alt' delay_factor' (Mikrotik.inherited self1)
          = (inr P, b2) ->
        fst (Mikrotik.set_base_prompt pri' alt' delay_factor' self1) = inr stored
        /\ Mikrotik.base_prompt
             (snd (Mikrotik.set_base_prompt pri' alt' delay_factor' self1))
           = stored).
Proof.
  intros H stored self1.
  assert (Hcall : forall s p a d Q b,
             Netmiko.set_base_prompt p a d (Mikrotik.inherited s) = (inr Q, b) ->
             Mikrotik.set_base_prompt p a d s
             = (inr (PyStr.strip Q),
                Mikrotik.set_inherited
                  (Netmiko.set_base_prompt_attr (PyStr.strip Q) b) s)).
  { intros s p a d Q b HQ. unfold Mikrotik.set_base_prompt. run.
    rewrite HQ. reflexivity. }
  split; [exact (Hcall _ _ _ _ _ _ H)|].
  split; [reflexivity|].
  split; [intros t c Ht; exact (PyStrFacts.rstrip_last _ _ _ Ht)|].
  split; [apply PyStrFacts.rstrip_strip|].
  split; [apply PyStrFacts.lstrip_strip|].
  split; [apply PyStrFacts.strip_idem|].
  intros pri' alt' d' b2 H2. rewrite (Hcall _ _ _ _ _ _ H2).
  split; reflexivity.
Qed.

(** What a successful [split] says. *)
Lemma str_split_inr (s sep : string) (lines : list string) :
  str_split s sep = inr lines ->
  sep <> EmptyString /\ lines = PyStr.split_lines sep s.
Proof.
  unfold str_split. destruct sep; cbn [PyStr.is_empty]; intros H;
    [discriminate|]. injection H as <-. split; [discriminate | reflexivity].
Qed.

Lemma str_split_nonempty (s sep : string) :
  sep <> EmptyString -> str_split s sep = inr (PyStr.split_lines sep s).
Proof. destruct sep; [contradiction | reflexivity]. Qed.

Lemma index_last_snoc (ls : list string) (x : string) :
  index_last (ls ++ [x]) = inr x.
Proof. unfold index_last. now rewrite last_snoc. Qed.

(** The generic pass on a text whose last line is the prompt. *)
Lemma generic_strip_prompt_drops (b : Netmiko.BaseConnection Chan)
    (s : string) (ls : list string) :
  str_split s (Netmiko.RESPONSE_RETURN b) = inr (ls ++ [Netmiko.base_prompt b]) ->
  Netmiko.strip_prompt s b = (inr (PyStr.join (Netmiko.RESPONSE_RETURN b) ls), b).
Proof.
  intros H. unfold Netmiko.strip_prompt. run. rewrite H. cbn.
  rewrite index_last_snoc. cbn. rewrite PyStrFacts.contains_refl.
  now rewrite removelast_last.
Qed.

(** The generic pass on a text whose last line is free of the prompt. *)
Lemma generic_strip_prompt_keeps (b : Netmiko.BaseConnection Chan)
    (s : string) (lines : list string) (last_line : string) :
  str_split s (Netmiko.RESPONSE_RETURN b) = inr lines ->
  last lines = Some last_line ->
  PyStr.contains (Netmiko.base_prompt b) last_line = false ->
  Netmiko.strip_prompt s b = (inr s, b).
Proof.
  intros H Hlast Hno. unfold Netmiko.strip_prompt. run. rewrite H. cbn.
  unfold index_last. rewrite Hlast. cbn. now rewrite Hno.
Qed.

(** The branch of [strip_prompt] taken when the prompt occurs in the
    last line. *)
Lemma strip_prompt_found self (a_string : string) (lines : list string)
    (last_line : string) :
  str_split a_string (Mikrotik.RESPONSE_RETURN self) = inr lines ->
  last lines = Some last_line ->
  PyStr.contains (Mikrotik.base_prompt self) last_line = true ->
  Mikrotik.strip_prompt a_string self
  = (let* rest :=
       Mikrotik.super
         (Netmiko.strip_prompt
            (PyStr.rstrip
               (PyStr.join (Mikrotik.RESPONSE_RETURN self) (removelast lines)))) in
     ret (PyStr.strip rest)) self.
Proof.
  intros Hsplit Hlast Hyes. unfold Mikrotik.strip_prompt, bind at 1 2 3 4.
  unfold get, lift. cbn beta iota. rewrite Hsplit. cbn beta iota.
  unfold index_last. rewrite Hlast, Hyes. reflexivity.
Qed.

(** C4. When the base prompt does not occur in the last line of the
    text, split at [RESPONSE_RETURN], [strip_prompt] returns the text as
    it was given and changes nothing in the session. *)
Theorem strip_prompt_identity self (a_string : string) (lines : list string)
    (last_line : string) :
  str_split a_string (Mikrotik.RESPONSE_RETURN self) = inr lines ->
  last lines = Some last_line ->
  PyStr.contains (Mikrotik.base_prompt self) last_line = false ->
  Mikrotik.strip_prompt a_string self = (inr a_string, self).
Proof.
  intros Hsplit Hlast Hno. unfold Mikrotik.strip_prompt. run.
  rewrite Hsplit. cbn. unfold index_last. rewrite Hlast. cbn.
  now rewrite Hno.
Qed.

(** C3 (as the code has it). Let the base prompt [P] be non-empty and
    without whitespace at its end, and let the lines of the text be
    [ls] followed by two lines equal to [P], or [ls] followed by one
    line equal to [P] where [P] does not occur in the last line of the
    right-trimmed body.  Then [strip_prompt] returns the body, the
    lines [ls] joined, trimmed on both sides.  The result is free of
    the prompt when the body is. *)
Theorem strip_prompt_trailing_prompts self (a_string : string) (ls : list string) :
  let P := Mikrotik.base_prompt self in
  let RR := Mikrotik.RESPONSE_RETURN self in
  let body := PyStr.join RR ls in
  P <> EmptyString -> PyStr.rstrip P = P ->
  (str_split a_string RR = inr (ls ++ [P; P])
   \/ (str_split a_string RR = inr (ls ++ [P])
       /\ forall lines last_line,
            str_split (PyStr.rstrip body) RR = inr lines ->
            last lines = Some last_line ->
            PyStr.contains P last_line = false)) ->
  Mikrotik.strip_prompt a_string self = (inr (PyStr.strip body), self)
  /\ (PyStr.contains P body = false ->
      PyStr.contains P (PyStr.strip body) = false).
Proof.
  intros P RR body Hne Htrim Hlines. split.
  2:{ intros Hfree. destruct (PyStrFacts.strip_substring body) as (a & b & Hb).
      rewrite Hb in Hfree. exact (PyStrFacts.contains_false_sub _ _ _ _ Hfree). }
  assert (Hlastline : forall l, last ((l ++ [P]) : list string) = Some P)
    by (intros l; apply last_snoc).
  destruct self as [b flag].
  destruct Hlines as [Htwo | [Hone Hlast]].
  - change (ls ++ [P; P]) with (ls ++ [P] ++ [P]) in Htwo.
    rewrite List.app_assoc in Htwo.
    rewrite (strip_prompt_found _ _ _ P Htwo (Hlastline _)
               (PyStrFacts.contains_refl P)).
    rewrite removelast_last.
    destruct (str_split_inr _ _ _ Htwo) as [Hsep Hsp].
    assert (Hkeep : PyStr.rstrip (PyStr.join RR (ls ++ [P]))
                    = PyStr.join RR (ls ++ [P])).
    { destruct ls as [|l ls'].
      - exact Htrim.
      - rewrite PyStrFacts.join_snoc by discriminate.
        rewrite <- PyStrFacts.app_assoc.
        now apply PyStrFacts.rstrip_app_keep. }
    fold RR. rewrite Hkeep. run. cbn [Mikrotik.inherited].
    rewrite (generic_strip_prompt_drops b _ ls).
    + reflexivity.
    + change (Netmiko.RESPONSE_RETURN b) with RR.
      change (Netmiko.base_prompt b) with P.
      rewrite str_split_nonempty by assumption. f_equal.
      apply (PyStrFacts.split_lines_drop_last RR a_string P);
        [assumption | now destruct ls | now symmetry].
  - rewrite (strip_prompt_found _ _ _ P Hone (Hlastline _)
               (PyStrFacts.contains_refl P)).
    rewrite removelast_last. fold RR body.
    destruct (str_split_inr _ _ _ Hone) as [Hsep _].
    destruct (last (PyStr.split_lines RR (PyStr.rstrip body))) as [l|] eqn:El.
    2:{ apply last_None in El.
        now apply PyStrFacts.split_lines_nonempty in El. }
    pose proof (str_split_nonempty (PyStr.rstrip body) RR Hsep) as Hsp.
    run. cbn [Mikrotik.inherited].
    rewrite (generic_strip_prompt_keeps b _ _ l Hsp El (Hlast _ l Hsp El)).
    cbn. now rewrite PyStrFacts.strip_rstrip.
Qed.

End Methods.

(* ===================================================================== *)
(** * The statements on the simulated device *)
(* ===================================================================== *)


Example strip_example :
  PyStr.strip (String "009" " [admin@MikroTik] > ") = Scenario.prompt.
Proof. reflexivity. Qed.

Example split_leftmost : PyStr.split_lines "aa" "xaaab" = ["x"; "ab"].
Proof. reflexivity. Qed.

Example split_keeps_empty_lines :
  PyStr.split_lines "," ",a,,b,"
  = [EmptyString; "a"; EmptyString; "b"; EmptyString].
Proof. reflexivity. Qed.

Example split_empty_text : PyStr.split_lines "," EmptyString = [EmptyString].
Proof. reflexivity. Qed.

Example join_example : PyStr.join ", " ["a"; "b"; "c"] = "a, b, c".
Proof. reflexivity. Qed.

Example re_escape_example :
  PyStr.re_escape Scenario.ping = "ping\ count=5\ 1\.0\.0\.1".
Proof. reflexivity. Qed.

Example wildcard_is_no_literal : PyStr.pattern_literal "1.0.0.1" = None.
Proof. reflexivity. Qed.

Lemma command_echo_read_returns_cmd_witness :
  (exists b2,
      Mikrotik.command_echo_read Scenario.ping (10 # 1)
        (SimDevice.session Scenario.prompt Scenario.echoed_once)
      = (inr Scenario.ping,
         Mikrotik.set_inherited b2
           (SimDevice.session Scenario.prompt Scenario.echoed_once))
      /\ PyStr.pattern_literal (PyStr.re_escape Scenario.ping) = Some Scenario.ping)
  /\ (exists b2,
      Mikrotik.command_echo_read Scenario.ping (10 # 1)
        (SimDevice.session Scenario.prompt Scenario.echoed_twice)
      = (inr Scenario.ping,
         Mikrotik.set_inherited b2
           (SimDevice.session Scenario.prompt Scenario.echoed_twice))
      /\ PyStr.pattern_literal (PyStr.re_escape Scenario.ping) = Some Scenario.ping).
Proof.
  split; eexists.
  - eapply (@command_echo_read_returns_cmd _ SimDevice.device);
      [reflexivity | reflexivity | right; eexists; reflexivity].
  - eapply (@command_echo_read_returns_cmd _ SimDevice.device);
      [reflexivity | reflexivity | left; eexists; reflexivity].
Defined.

Lemma command_echo_read_timeouts_witness :
  Mikrotik.command_echo_read Scenario.ping (10 # 1)
    (SimDevice.session Scenario.prompt [])
  = (inl (ReadTimeout Scenario.ping), SimDevice.session Scenario.prompt [])
  /\ Mikrotik.command_echo_read Scenario.ping (10 # 1)
       (SimDevice.session Scenario.prompt Scenario.echoed_once)
     = (inr Scenario.ping,
        SimDevice.session Scenario.prompt
          [((1 # 2)%Q, "  SEQ HOST  SIZE TTL TIME  STATUS")]).
Proof.
  split.
  - apply (proj1 (@command_echo_read_timeouts _ SimDevice.device
                    (SimDevice.session Scenario.prompt []) Scenario.ping (10 # 1))
             (ReadTimeout Scenario.ping)
             (Mikrotik.inherited (SimDevice.session Scenario.prompt []))).
    reflexivity.
  - apply (proj2 (@command_echo_read_timeouts _ SimDevice.device
                    (SimDevice.session Scenario.prompt Scenario.echoed_once)
                    Scenario.ping (10 # 1))
             Scenario.ping
             (Mikrotik.inherited
                (SimDevice.session Scenario.prompt
                   [((2 # 1)%Q, "  SEQ HOST  SIZE TTL TIME  STATUS")]))
             Scenario.ping
             (Mikrotik.inherited
                (SimDevice.session Scenario.prompt
                   [((1 # 2)%Q, "  SEQ HOST  SIZE TTL TIME  STATUS")])));
      reflexivity.
Defined.

Lemma set_base_prompt_stores_trimmed_witness :
  Mikrotik.set_base_prompt ">" ">" (1 # 1)
    (SimDevice.session "old" [((0 # 1)%Q, "[admin@MikroTik] > ")])
  = (inr Scenario.prompt, SimDevice.session Scenario.prompt []).
Proof.
  apply (@set_base_prompt_stores_trimmed _ SimDevice.device
           (SimDevice.session "old" [((0 # 1)%Q, "[admin@MikroTik] > ")])
           ">" ">" (1 # 1) "[admin@MikroTik] > "
           (Mikrotik.inherited (SimDevice.session "[admin@MikroTik] > " []))).
  reflexivity.
Defined.

Lemma init_config_mode_false_witness :
  Mikrotik.check_config_mode "#" ">"
    (Mikrotik.mkMikrotik
       (Netmiko.mkBase "admin" EmptyString Scenario.LF false ([] : SimDevice.Chan))
       false)
  = (inr false,
     Mikrotik.mkMikrotik
       (Netmiko.mkBase "admin" EmptyString Scenario.LF false ([] : SimDevice.Chan))
       false).
Proof.
  refine (proj1 (proj2 (@init_config_mode_false _ SimDevice.device
                          {["username" := PyStr "admin"]} _ _)) "#" ">").
  vm_compute. reflexivity.
Defined.

Lemma strip_prompt_identity_witness :
  Mikrotik.strip_prompt (PyStr.join Scenario.LF Scenario.body_lines)
    (SimDevice.session Scenario.prompt [])
  = (inr (PyStr.join Scenario.LF Scenario.body_lines),
     SimDevice.session Scenario.prompt []).
Proof.
  apply (strip_prompt_identity (SimDevice.session Scenario.prompt [])
           (PyStr.join Scenario.LF Scenario.body_lines)
           Scenario.body_lines "    0 1.0.0.1  56  60 23ms");
    reflexivity.
Defined.

Lemma strip_prompt_trailing_prompts_witness :
  Mikrotik.strip_prompt Scenario.two_prompts (SimDevice.session Scenario.prompt [])
  = (inr (PyStr.strip (PyStr.join Scenario.LF Scenario.body_lines)),
     SimDevice.session Scenario.prompt [])
  /\ Mikrotik.strip_prompt Scenario.one_prompt (SimDevice.session Scenario.prompt [])
     = (inr (PyStr.strip (PyStr.join Scenario.LF Scenario.body_lines)),
        SimDevice.session Scenario.prompt []).
Proof.
  split.
  - apply (strip_prompt_trailing_prompts (SimDevice.session Scenario.prompt [])
             Scenario.two_prompts Scenario.body_lines);
      [discriminate | reflexivity | left; reflexivity].
  - apply (strip_prompt_trailing_prompts (SimDevice.session Scenario.prompt [])
             Scenario.one_prompt Scenario.body_lines);
      [discriminate | reflexivity | right; split; [reflexivity|]].
    intros lines last_line Hsplit Hlast.
    vm_compute in Hsplit. injection Hsplit as <-.
    vm_compute in Hlast. injection Hlast as <-. reflexivity.
Defined.

(** C3 (as the claim has it) fails.  Both texts end in exactly one
    line equal to the base prompt.  In the first the repainted command
    line stays in the result, and the prompt with it.  In the second the
    line before the prompt line holds the prompt followed by a space: the
    generic pass removes it as well, so the result is not the trimmed
    body. *)
Lemma strip_prompt_trailing_prompts_counterexample :
  let self := SimDevice.session Scenario.prompt ([] : SimDevice.Chan) in
  let P := Mikrotik.base_prompt self in
  let RR := Mikrotik.RESPONSE_RETURN self in
  (let ls := Scenario.repainted_lines in
   let text := PyStr.join RR (ls ++ [P]) in
   str_split text RR = inr (ls ++ [P])
   /\ last ls <> Some P
   /\ Mikrotik.strip_prompt text self = (inr (PyStr.join RR ls), self)
   /\ PyStr.contains P (PyStr.join RR ls) = true)
  /\ (let ls := Scenario.spaced_lines in
      let text := PyStr.join RR (ls ++ [P]) in
      str_split text RR = inr (ls ++ [P])
      /\ last ls <> Some P
      /\ Mikrotik.strip_prompt text self = (inr "0 1.0.0.1  56  60 23ms", self)
      /\ PyStr.strip (PyStr.join RR ls) <> "0 1.0.0.1  56  60 23ms").
Proof.
  cbv zeta. repeat split; try reflexivity; vm_compute; discriminate.
Qed.

(* ===================================================================== *)
(** * Further facts about the string operations *)
(* ===================================================================== *)

Module PyStrMore.
Import PyStr PyStrFacts Usage.

(** ** What trimming removes *)

Lemma lstrip_removed (s : string) :
  exists a, s = a +:+ lstrip s /\ all_space a = true.
Proof.
  induction s as [|c s0 (a & IH & Ha)]; [now exists EmptyString|].
  cbn [lstrip]. destruct (isspace c) eqn:Ec.
  - exists (String c a). rewrite app_cons, <- IH. cbn [all_space].
    now rewrite Ec, Ha.
  - now exists EmptyString.
Qed.

Lemma rstrip_removed (s : string) :
  exists b, s = rstrip s +:+ b /\ all_space b = true.
Proof.
  induction s as [|c s0 (b & IH & Hb)]; [now exists EmptyString|].
  cbn [rstrip]. destruct (is_empty (rstrip s0) && isspace c) eqn:E.
  - apply andb_prop in E as [Hr Hc]. exists (String c s0).
    split; [reflexivity|]. cbn [all_space]. rewrite Hc. cbn [andb].
    destruct (rstrip s0); [|discriminate]. now rewrite IH.
  - exists b. now rewrite app_cons, <- IH.
Qed.

Lemma strip_removed (s : string) :
  exists a b,
    s = a +:+ strip s +:+ b /\ all_space a = true /\ all_space b = true.
Proof.
  destruct (lstrip_removed s) as (a & Ha & Hsa).
  destruct (rstrip_removed (lstrip s)) as (b & Hb & Hsb).
  exists a, b. unfold strip. now rewrite <- Hb.
Qed.

Lemma lstrip_all_space (s : string) :
  all_space s = true -> lstrip s = EmptyString.
Proof.
  induction s as [|c s0 IH]; [reflexivity|]. cbn [all_space lstrip].
  intros H. apply andb_prop in H as [-> H]. now apply IH.
Qed.

Lemma strip_all_space (s : string) :
  all_space s = true -> strip s = EmptyString.
Proof. intros H. unfold strip. now rewrite lstrip_all_space. Qed.

(** Trimming on the left keeps a non-empty left-trimmed text at the end. *)
Lemma lstrip_app_keep (x p : string) :
  p <> EmptyString -> lstrip p = p -> exists y, lstrip (x +:+ p) = y +:+ p.
Proof.
  intros Hne Hp. induction x as [|c x IH].
  - exists EmptyString. now rewrite !app_nil_l.
  - rewrite app_cons. cbn [lstrip]. destruct (isspace c); [exact IH|].
    now exists (String c x).
Qed.

Lemma strip_app_keep (x p : string) :
  p <> EmptyString -> strip p = p -> exists y, strip (x +:+ p) = y +:+ p.
Proof.
  intros Hne Hp.
  assert (Hl : lstrip p = p) by (rewrite <- Hp; apply lstrip_strip).
  assert (Hr : rstrip p = p) by (rewrite <- Hp; apply rstrip_strip).
  destruct (lstrip_app_keep x p Hne Hl) as [y Hy]. exists y.
  unfold strip. rewrite Hy. now apply rstrip_app_keep.
Qed.

(** ** Texts of one line, and the text before the last line *)

Lemma contains_false_find_sep (sep s : string) :
  contains sep s = false -> find_sep sep s = None.
Proof.
  induction s as [|c s0 IH]; cbn [contains find_sep]; intros H;
    apply orb_false_elim in H as [-> H]; [reflexivity|].
  now rewrite (IH H).
Qed.

Lemma split_lines_single (sep s : string) :
  sep <> EmptyString -> contains sep s = false -> split_lines sep s = [s].
Proof.
  intros Hne H. rewrite split_lines_eq by assumption.
  now rewrite contains_false_find_sep.
Qed.

(** The lines but the last, joined again, are the beginning of the text. *)
Lemma join_removelast_prefix (sep s : string) :
  sep <> EmptyString ->
  exists tail, s = join sep (removelast (split_lines sep s)) +:+ tail.
Proof.
  intros Hne. pose proof (join_split_lines sep s Hne) as Hjoin.
  pose proof (split_lines_nonempty sep s) as Hnil.
  destruct (@exists_last _ (split_lines sep s) Hnil) as (init & x & E).
  rewrite E in *. rewrite removelast_last.
  destruct init as [|l init].
  - exists s. reflexivity.
  - rewrite join_snoc in Hjoin by discriminate. now exists (sep +:+ x).
Qed.

Lemma app_prefix_trans (s a t1 b t2 : string) :
  s = a +:+ t1 -> a = b +:+ t2 -> s = b +:+ (t2 +:+ t1).
Proof. intros -> ->. apply app_assoc. Qed.

End PyStrMore.

(* ===================================================================== *)
(** * Further properties of the driver's methods *)
(* ===================================================================== *)

Section StripPrompt.
Context {Chan : Type}.
Implicit Types (self : Mikrotik.MikrotikBase Chan).

Lemma last_split_lines (sep s : string) :
  exists l, last (PyStr.split_lines sep s) = Some l.
Proof.
  destruct (last (PyStr.split_lines sep s)) as [l|] eqn:E; [now exists l|].
  apply last_None in E. now apply PyStrFacts.split_lines_nonempty in E.
Qed.

(** The generic pass returns a beginning of the text and never raises
    when the separator is not empty. *)
Lemma generic_strip_prompt_shape (b : Netmiko.BaseConnection Chan) (s : string) :
  Netmiko.RESPONSE_RETURN b <> EmptyString ->
  exists s2 tail, s = s2 +:+ tail /\ Netmiko.strip_prompt s b = (inr s2, b).
Proof.
  intros Hsep. destruct (last_split_lines (Netmiko.RESPONSE_RETURN b) s) as [l Hl].
  pose proof (str_split_nonempty s _ Hsep) as Hsp.
  destruct (PyStr.contains (Netmiko.base_prompt b) l) eqn:E.
  - destruct (PyStrMore.join_removelast_prefix _ s Hsep) as [tail Ht].
    exists (PyStr.join (Netmiko.RESPONSE_RETURN b)
              (removelast (PyStr.split_lines (Netmiko.RESPONSE_RETURN b) s))), tail.
    split; [exact Ht|]. unfold Netmiko.strip_prompt. run. rewrite Hsp. cbn.
    unfold index_last. rewrite Hl. cbn. now rewrite E.
  - exists s, EmptyString. split; [now rewrite PyStrFacts.app_nil_r|].
    exact (generic_strip_prompt_keeps b s _ l Hsp Hl E).
Qed.

(** The branch of [strip_prompt] taken when the prompt does not occur in
    the last line. *)
Lemma strip_prompt_not_found self (a_string : string) (lines : list string)
    (last_line : string) :
  str_split a_string (Mikrotik.RESPONSE_RETURN self) = inr lines ->
  last lines = Some last_line ->
  PyStr.contains (Mikrotik.base_prompt self) last_line = false ->
  Mikrotik.strip_prompt a_string self = (inr a_string, self).
Proof.
  intros Hsplit Hlast Hno. unfold Mikrotik.strip_prompt. run.
  rewrite Hsplit. cbn. unfold index_last. rewrite Hlast. cbn.
  now rewrite Hno.
Qed.

(** With a separator that is not empty, [strip_prompt] returns the text
    itself or a beginning of the text trimmed on both sides, and the
    session stays as it is. *)
Lemma strip_prompt_shape self (a_string : string) :
  Mikrotik.RESPONSE_RETURN self <> EmptyString ->
  Mikrotik.strip_prompt a_string self = (inr a_string, self)
  \/ exists t tail,
       a_string = t +:+ tail
       /\ Mikrotik.strip_prompt a_string self = (inr (PyStr.strip t), self).
Proof.
  intros Hsep.
  destruct (last_split_lines (Mikrotik.RESPONSE_RETURN self) a_string) as [l Hl].
  pose proof (str_split_nonempty a_string _ Hsep) as Hsp.
  destruct (PyStr.contains (Mikrotik.base_prompt self) l) eqn:E.
  - right. rewrite (strip_prompt_found self _ _ l Hsp Hl E).
    destruct (PyStrMore.join_removelast_prefix _ a_string Hsep) as [tail1 Ht1].
    set (t0 := PyStr.join (Mikrotik.RESPONSE_RETURN self)
                 (removelast (PyStr.split_lines (Mikrotik.RESPONSE_RETURN self)
                                a_string))) in *.
    destruct (PyStrFacts.rstrip_prefix t0) as [tail2 Ht2].
    destruct self as [b flag].
    destruct (generic_strip_prompt_shape b (PyStr.rstrip t0) Hsep)
      as (t & tail3 & Ht3 & Hrun).
    exists t, (tail3 +:+ tail2 +:+ tail1). split.
    + rewrite Ht1 at 1. rewrite Ht2 at 1. rewrite Ht3 at 1.
      now rewrite !PyStrFacts.app_assoc.
    + run. cbn [Mikrotik.inherited]. rewrite Hrun. reflexivity.
  - left. exact (strip_prompt_not_found self _ _ l Hsp Hl E).
Qed.

(** X1. With an empty [RESPONSE_RETURN], [strip_prompt] raises the
    [ValueError] of [split] for every text, and the session stays as it
    is. *)
Theorem strip_prompt_empty_separator self (a_string : string) :
  Mikrotik.RESPONSE_RETURN self = EmptyString ->
  Mikrotik.strip_prompt a_string self
  = (inl (ValueError "empty separator"), self).
Proof.
  intros H. unfold Mikrotik.strip_prompt. run. rewrite H. reflexivity.
Qed.

(** X2. With a [RESPONSE_RETURN] that is not empty, [strip_prompt] returns
    a text for every input and every base prompt: neither [split] nor the
    indexing of the last line raises, in the driver or in the generic
    pass; and the session stays as it is. *)
Theorem strip_prompt_returns self (a_string : string) :
  Mikrotik.RESPONSE_RETURN self <> EmptyString ->
  exists r, Mikrotik.strip_prompt a_string self = (inr r, self).
Proof.
  intros Hsep.
  destruct (strip_prompt_shape self a_string Hsep) as [H | (t & tail & _ & H)];
    eauto.
Qed.

(** X3. What [strip_prompt] returns is the text itself, or a contiguous
    part of the text that has no whitespace at its start or end; it is
    never longer than the text. *)
Theorem strip_prompt_returns_part self (a_string r : string)
    (self' : Mikrotik.MikrotikBase Chan) :
  Mikrotik.strip_prompt a_string self = (inr r, self') ->
  (r = a_string \/ PyStr.strip r = r)
  /\ (exists before after, a_string = before +:+ r +:+ after)
  /\ String.length r <= String.length a_string.
Proof.
  intros Hrun.
  assert (Hsep : Mikrotik.RESPONSE_RETURN self <> EmptyString).
  { intros Hempty. unfold Mikrotik.strip_prompt in Hrun. run.
    rewrite Hempty in Hrun. discriminate. }
  assert (Hpart : (r = a_string \/ PyStr.strip r = r)
                  /\ exists before after, a_string = before +:+ r +:+ after).
  { destruct (strip_prompt_shape self a_string Hsep)
      as [H | (t & tail & Ht & H)]; rewrite H in Hrun; injection Hrun as <- _.
    - split; [now left|]. exists EmptyString, EmptyString.
      now rewrite PyStrFacts.app_nil_l, PyStrFacts.app_nil_r.
    - split; [right; apply PyStrFacts.strip_idem|].
      destruct (PyStrFacts.strip_substring t) as (a & b & Hab).
      exists a, (b +:+ tail). rewrite Ht. rewrite Hab at 1.
      now rewrite !PyStrFacts.app_assoc. }
  destruct Hpart as [Hshape (before & after & Hba)].
  split; [exact Hshape|]. split; [now exists before, after|].
  rewrite Hba, !PyStrFacts.length_app. lia.
Qed.

(** X4. A text of one line, that is, without an occurrence of
    [RESPONSE_RETURN], in which the base prompt occurs is stripped to the
    empty string, whatever else the line holds; with an empty base prompt
    that is every one-line text. *)
Theorem strip_prompt_single_line self (a_string : string) :
  PyStr.contains (Mikrotik.RESPONSE_RETURN self) a_string = false ->
  PyStr.contains (Mikrotik.base_prompt self) a_string = true ->
  Mikrotik.strip_prompt a_string self = (inr EmptyString, self).
Proof.
  intros Hone Hfound.
  assert (Hsep : Mikrotik.RESPONSE_RETURN self <> EmptyString).
  { intros Hempty. rewrite Hempty in Hone. now destruct a_string. }
  pose proof (str_split_nonempty a_string _ Hsep) as Hsp.
  rewrite (PyStrMore.split_lines_single _ _ Hsep Hone) in Hsp.
  rewrite (strip_prompt_found self _ _ a_string Hsp eq_refl Hfound).
  cbn [removelast PyStr.join PyStr.rstrip]. destruct self as [b flag].
  unfold Mikrotik.RESPONSE_RETURN in Hsep. cbn [Mikrotik.inherited] in Hsep.
  assert (Hgen : Netmiko.strip_prompt EmptyString b = (inr EmptyString, b)).
  { assert (Hsp0 : str_split EmptyString (Netmiko.RESPONSE_RETURN b)
                   = inr [EmptyString]).
    { rewrite str_split_nonempty by assumption.
      rewrite PyStrMore.split_lines_single; [reflexivity | assumption |].
      destruct (Netmiko.RESPONSE_RETURN b); [contradiction | reflexivity]. }
    unfold Netmiko.strip_prompt. run. rewrite Hsp0. cbn.
    now destruct (PyStr.startswith (Netmiko.base_prompt b) EmptyString). }
  run. cbn [Mikrotik.inherited]. rewrite Hgen. reflexivity.
Qed.

End StripPrompt.

Section MoreMethods.
Context {Chan : Type} {parent : Netmiko.Inherited Chan}.
Implicit Types (self : Mikrotik.MikrotikBase Chan) (kwargs : gmap string pyval).

(** After two trailing prompt lines the body is left. *)
Lemma strip_prompt_two_trailing self (a_string : string) (ls : list string) :
  Mikrotik.base_prompt self <> EmptyString ->
  PyStr.rstrip (Mikrotik.base_prompt self) = Mikrotik.base_prompt self ->
  str_split a_string (Mikrotik.RESPONSE_RETURN self)
  = inr (ls ++ [Mikrotik.base_prompt self; Mikrotik.base_prompt self]) ->
  Mikrotik.strip_prompt a_string self
  = (inr (PyStr.strip (PyStr.join (Mikrotik.RESPONSE_RETURN self) ls)), self).
Proof.
  intros Hne Htrim Htwo.
  set (P := Mikrotik.base_prompt self) in *.
  set (RR := Mikrotik.RESPONSE_RETURN self) in *.
  change (ls ++ [P; P]) with (ls ++ [P] ++ [P]) in Htwo.
  rewrite List.app_assoc in Htwo.
  rewrite (strip_prompt_found self _ _ P Htwo (last_snoc _ _)
             (PyStrFacts.contains_refl P)).
  rewrite removelast_last.
  destruct (str_split_inr _ _ _ Htwo) as [Hsep Hsp].
  assert (Hkeep : PyStr.rstrip (PyStr.join RR (ls ++ [P]))
                  = PyStr.join RR (ls ++ [P])).
  { destruct ls as [|l ls'].
    - exact Htrim.
    - rewrite PyStrFacts.join_snoc by discriminate.
      rewrite <- PyStrFacts.app_assoc.
      now apply PyStrFacts.rstrip_app_keep. }
  fold RR. rewrite Hkeep. destruct self as [b flag]. run.
  cbn [Mikrotik.inherited].
  rewrite (generic_strip_prompt_drops b _ ls); [reflexivity|].
  change (Netmiko.RESPONSE_RETURN b) with RR.
  change (Netmiko.base_prompt b) with P.
  rewrite str_split_nonempty by assumption. f_equal.
  apply (PyStrFacts.split_lines_drop_last RR a_string P);
    [assumption | now destruct ls | now symmetry].
Qed.

(** X5. Of three trailing prompt lines two are removed: for a base prompt
    that is not empty and has no whitespace at its start or end, the
    result is the body followed by one prompt line, trimmed, and so it
    still ends in the prompt. *)
Theorem strip_prompt_three_prompts self (a_string : string) (ls : list string) :
  let P := Mikrotik.base_prompt self in
  let RR := Mikrotik.RESPONSE_RETURN self in
  P <> EmptyString -> PyStr.strip P = P ->
  str_split a_string RR = inr (ls ++ [P; P; P]) ->
  Mikrotik.strip_prompt a_string self
  = (inr (PyStr.strip (PyStr.join RR (ls ++ [P]))), self)
  /\ exists before, PyStr.strip (PyStr.join RR (ls ++ [P])) = before +:+ P.
Proof.
  intros P RR Hne Htrim Hthree. split.
  - apply strip_prompt_two_trailing; fold P RR.
    + exact Hne.
    + rewrite <- Htrim. apply PyStrFacts.rstrip_strip.
    + rewrite Hthree. f_equal. now rewrite <- List.app_assoc.
  - destruct ls as [|l ls'].
    + exists EmptyString. cbn [app PyStr.join]. now rewrite Htrim.
    + rewrite PyStrFacts.join_snoc by discriminate.
      rewrite <- PyStrFacts.app_assoc.
      now apply PyStrMore.strip_app_keep.
Qed.

(** X6. An exception of the second read that is no [ReadTimeout], the
    parent class [ReadException] for one, is not caught:
    [command_echo_read] raises it, and [cmd] is not returned. *)
Theorem command_echo_read_other_exception self (cmd : string) (read_timeout : Q)
    (out1 : string) (b1 b2 : Netmiko.BaseConnection Chan) (e : exn) :
  Netmiko.read_until_pattern (PyStr.re_escape cmd) read_timeout
    (Mikrotik.inherited self) = (inr out1, b1) ->
  Netmiko.read_until_pattern (PyStr.re_escape cmd) (3 # 2) b1 = (inl e, b2) ->
  is_ReadTimeout e = false ->
  Mikrotik.command_echo_read cmd read_timeout self
  = (inl e, Mikrotik.set_inherited b2 self).
Proof.
  intros H1 H2 He. unfold Mikrotik.command_echo_read. run.
  rewrite H1. cbn. rewrite H2, He. reflexivity.
Qed.

(** X7. When the generic prompt derivation raises, [set_base_prompt]
    raises the same exception and stores nothing: the base prompt is the
    one the generic derivation left. *)
Theorem set_base_prompt_raises self (pri alt : string) (delay_factor : Q)
    (e : exn) (b1 : Netmiko.BaseConnection Chan) :
  Netmiko.set_base_prompt pri alt delay_factor (Mikrotik.inherited self)
    = (inl e, b1) ->
  Mikrotik.set_base_prompt pri alt delay_factor self
    = (inl e, Mikrotik.set_inherited b1 self)
  /\ Mikrotik.base_prompt
       (snd (Mikrotik.set_base_prompt pri alt delay_factor self))
     = Netmiko.base_prompt b1.
Proof.
  intros H.
  assert (Hrun : Mikrotik.set_base_prompt pri alt delay_factor self
                 = (inl e, Mikrotik.set_inherited b1 self)).
  { unfold Mikrotik.set_base_prompt. run. rewrite H. reflexivity. }
  split; [exact Hrun | now rewrite Hrun].
Qed.

(** X8. [set_base_prompt] removes whitespace only: the derived prompt is
    the stored prompt between two runs of whitespace.  A derived prompt
    that is all whitespace is stored as the empty string. *)
Theorem set_base_prompt_removes_whitespace_only self (pri alt : string)
    (delay_factor : Q) (P : string) (b1 : Netmiko.BaseConnection Chan) :
  Netmiko.set_base_prompt pri alt delay_factor (Mikrotik.inherited self)
    = (inr P, b1) ->
  let stored :=
    Mikrotik.base_prompt
      (snd (Mikrotik.set_base_prompt pri alt delay_factor self)) in
  (exists before after,
      P = before +:+ stored +:+ after
      /\ Usage.all_space before = true /\ Usage.all_space after = true)
  /\ (Usage.all_space P = true -> stored = EmptyString).
Proof.
  intros H stored.
  assert (Hstored : stored = PyStr.strip P).
  { unfold stored, Mikrotik.set_base_prompt. run. rewrite H. reflexivity. }
  rewrite Hstored. split.
  - apply PyStrMore.strip_removed.
  - apply PyStrMore.strip_all_space.
Qed.

(** X9. When [session_preparation] returns, the base prompt it leaves is
    trimmed on both sides, and the config-mode flag is the one it found. *)
Theorem session_preparation_leaves_trimmed_prompt self (args : list pyval) kwargs
    (self' : Mikrotik.MikrotikBase Chan) :
  Mikrotik.session_preparation args kwargs self = (inr tt, self') ->
  PyStr.strip (Mikrotik.base_prompt self') = Mikrotik.base_prompt self'
  /\ Mikrotik._in_config_mode self' = Mikrotik._in_config_mode self.
Proof.
  unfold Mikrotik.session_preparation, Mikrotik.set_base_prompt. run.
  destruct (Netmiko._test_channel_read _ _) as [[e|out] b1]; [discriminate|].
  cbn. destruct (Netmiko.set_base_prompt _ _ _ _) as [[e|P] b2];
    [discriminate|].
  cbn. intros H. injection H as <-. split; [|reflexivity].
  apply PyStrFacts.strip_idem.
Qed.

(** X10. [session_preparation] switches ANSI escape handling on before it
    reads.  An exception of the channel test leaves it at once, without a
    prompt derivation; an exception of the prompt derivation, made with
    both terminators [>] and delay factor 1, leaves it as well. *)
Theorem session_preparation_raises self (args : list pyval) kwargs :
  let b0 := Netmiko.set_ansi_escape_codes true (Mikrotik.inherited self) in
  (forall e b1,
      Netmiko._test_channel_read "[\]>]" b0 = (inl e, b1) ->
      Mikrotik.session_preparation args kwargs self
      = (inl e, Mikrotik.set_inherited b1 self))
  /\ (forall out b1 e b2,
      Netmiko._test_channel_read "[\]>]" b0 = (inr out, b1) ->
      Netmiko.set_base_prompt ">" ">" (1 # 1) b1 = (inl e, b2) ->
      Mikrotik.session_preparation args kwargs self
      = (inl e, Mikrotik.set_inherited b2 self)).
Proof.
  cbn zeta. split.
  - intros e b1 H. unfold Mikrotik.session_preparation. run.
    cbn [Mikrotik.inherited Mikrotik.set_inherited]. rewrite H. reflexivity.
  - intros out b1 e b2 H1 H2.
    unfold Mikrotik.session_preparation, Mikrotik.set_base_prompt. run.
    cbn [Mikrotik.inherited Mikrotik.set_inherited]. rewrite H1. cbn.
    rewrite H2. reflexivity.
Qed.

End MoreMethods.

Section Construction.
Context {Chan : Type} {parent : Netmiko.Inherited Chan}.
Implicit Types (self : Mikrotik.MikrotikBase Chan) (kwargs : gmap string pyval).

(** X11. The constructor hands the inherited constructor keyword
    arguments in which [default_enter] is never missing and never [None]
    and every other key is as the caller gave it.  It returns the session
    built from the inherited constructor's result, with the config-mode
    flag cleared, or raises the inherited constructor's exception. *)
Theorem init_passes_kwargs kwargs :
  exists kwargs' : gmap string pyval,
    (forall k, k <> "default_enter" -> kwargs' !! k = kwargs !! k)
    /\ is_None (dict_get kwargs' "default_enter") = false
    /\ Mikrotik.__init__ kwargs
       = match Netmiko.__init__ kwargs' with
         | inr b => inr (Mikrotik.mkMikrotik b false)
         | inl e => inl e
         end.
Proof.
  unfold Mikrotik.__init__.
  destruct (is_None (dict_get kwargs "default_enter")) eqn:E.
  - eexists. split; [|split; [|reflexivity]].
    + intros k Hk. now rewrite lookup_insert_ne.
    + unfold dict_get. now rewrite lookup_insert_eq.
  - exists kwargs. repeat split. exact E.
Qed.

(** X12. Leaving [default_enter] out, or passing [None] for it, is the
    same as passing carriage return and line feed. *)
Theorem init_default_enter kwargs :
  dict_get kwargs "default_enter" = PyNone ->
  Mikrotik.__init__ kwargs
  = Mikrotik.__init__ (<["default_enter" := PyStr Mikrotik.CRLF]> kwargs).
Proof.
  intros H. unfold Mikrotik.__init__. rewrite H. cbn [is_None].
  unfold dict_get at 1. rewrite lookup_insert_eq. reflexivity.
Qed.

(** X13. [_modify_connection_params] is not idempotent: called twice it
    appends the suffix twice.  One call never leaves the user name as it
    was. *)
Theorem modify_connection_params_twice self :
  Mikrotik.username
    (snd ((let* _ := Mikrotik._modify_connection_params in
           Mikrotik._modify_connection_params) self))
  = Mikrotik.username self +:+ "+cetw511h4098" +:+ "+cetw511h4098"
  /\ Mikrotik.username (snd (Mikrotik._modify_connection_params self))
     <> Mikrotik.username self.
Proof.
  split.
  - unfold Mikrotik._modify_connection_params. run. unfold Mikrotik.username.
    cbn. apply PyStrFacts.app_assoc.
  - unfold Mikrotik._modify_connection_params. run. unfold Mikrotik.username.
    cbn. intros H. apply (f_equal String.length) in H.
    rewrite PyStrFacts.length_app in H. cbn in H. lia.
Qed.

(** X14. After any sequence of [config_mode] and [exit_config_mode] calls,
    with any arguments, [check_config_mode] tells which of the two was
    called last (and the flag the sequence found when it is empty); the
    sequence cannot raise and leaves the inherited part of the session,
    the transport with it, untouched. *)
Theorem check_config_mode_after_calls self (cs : list Usage.mode_call)
    (check_string pattern : string) :
  let flag :=
    match last cs with
    | Some c => Usage.is_enter c
    | None => Mikrotik._in_config_mode self
    end in
  (let* _ := Usage.calls cs in Mikrotik.check_config_mode check_string pattern)
    self
  = (inr flag, Mikrotik.mkMikrotik (Mikrotik.inherited self) flag).
Proof.
  cbn zeta. revert self. induction cs as [|c cs IH]; intros self.
  - destruct self. reflexivity.
  - cbn [Usage.calls]. unfold bind at 1 2. fold (@bind (Mikrotik.MikrotikBase Chan)).
    assert (Hc : Usage.call c self
                 = (inr EmptyString,
                    Mikrotik.mkMikrotik (Mikrotik.inherited self) (Usage.is_enter c)))
      by (destruct c, self; reflexivity).
    rewrite Hc. specialize (IH (Mikrotik.mkMikrotik (Mikrotik.inherited self)
                                  (Usage.is_enter c))).
    unfold bind in IH at 1. cbn [Mikrotik.inherited Mikrotik._in_config_mode] in IH.
    destruct (Usage.calls cs _) as [[e|[]] st] eqn:E.
    + discriminate.
    + rewrite IH. destruct cs as [|c' cs']; [reflexivity|].
      change (last (c :: c' :: cs')) with (last (c' :: cs')).
      destruct (last (c' :: cs')) eqn:El; [reflexivity|].
      apply last_None in El. discriminate.
Qed.

(** X15. [set_base_prompt] establishes what [strip_prompt] needs: when
    the stored prompt is not empty, a text that ends in two lines equal
    to it is stripped to its trimmed body right after the prompt has been
    set. *)
Theorem set_base_prompt_then_strip_prompt self (pri alt : string)
    (delay_factor : Q) (derived : string) (b1 : Netmiko.BaseConnection Chan)
    (a_string : string) (ls : list string) :
  let P := PyStr.strip derived in
  let RR := Netmiko.RESPONSE_RETURN b1 in
  Netmiko.set_base_prompt pri alt delay_factor (Mikrotik.inherited self)
    = (inr derived, b1) ->
  P <> EmptyString ->
  str_split a_string RR = inr (ls ++ [P; P]) ->
  (let* _ := Mikrotik.set_base_prompt pri alt delay_factor in
   Mikrotik.strip_prompt a_string) self
  = (inr (PyStr.strip (PyStr.join RR ls)),
     Mikrotik.set_inherited (Netmiko.set_base_prompt_attr P b1) self).
Proof.
  intros P RR Hset Hne Hlines.
  assert (Hrun : Mikrotik.set_base_prompt pri alt delay_factor self
                 = (inr P, Mikrotik.set_inherited
                             (Netmiko.set_base_prompt_attr P b1) self)).
  { unfold Mikrotik.set_base_prompt. run. rewrite Hset. reflexivity. }
  unfold bind. rewrite Hrun.
  apply (strip_prompt_two_trailing
           (Mikrotik.set_inherited (Netmiko.set_base_prompt_attr P b1) self)).
  - exact Hne.
  - apply PyStrFacts.rstrip_strip.
  - exact Hlines.
Qed.

End Construction.

(* ===================================================================== *)
(** * The further properties on the two devices *)
(* ===================================================================== *)

Lemma strip_prompt_empty_separator_witness :
  Mikrotik.strip_prompt Scenario.one_prompt
    (Scripted.session Scenario.prompt EmptyString [])
  = (inl (ValueError "empty separator"),
     Scripted.session Scenario.prompt EmptyString []).
Proof.
  apply (strip_prompt_empty_separator
           (Scripted.session Scenario.prompt EmptyString [])
           Scenario.one_prompt).
  reflexivity.
Defined.

Lemma strip_prompt_returns_witness :
  exists r,
    Mikrotik.strip_prompt Scenario.one_prompt (SimDevice.session Scenario.prompt [])
    = (inr r, SimDevice.session Scenario.prompt []).
Proof.
  apply (strip_prompt_returns (SimDevice.session Scenario.prompt [])
           Scenario.one_prompt).
  discriminate.
Defined.

Lemma strip_prompt_returns_part_witness :
  let r := PyStr.strip (PyStr.join Scenario.LF Scenario.body_lines) in
  (r = Scenario.two_prompts \/ PyStr.strip r = r)
  /\ (exists before after, Scenario.two_prompts = before +:+ r +:+ after)
  /\ String.length r <= String.length Scenario.two_prompts.
Proof.
  apply (strip_prompt_returns_part (SimDevice.session Scenario.prompt [])
           Scenario.two_prompts
           (PyStr.strip (PyStr.join Scenario.LF Scenario.body_lines))
           (SimDevice.session Scenario.prompt [])).
  reflexivity.
Defined.

Lemma strip_prompt_single_line_witness :
  Mikrotik.strip_prompt ("[admin@MikroTik] > " +:+ Scenario.ping)
    (SimDevice.session Scenario.prompt [])
  = (inr EmptyString, SimDevice.session Scenario.prompt []).
Proof.
  apply (strip_prompt_single_line (SimDevice.session Scenario.prompt [])
           ("[admin@MikroTik] > " +:+ Scenario.ping));
    reflexivity.
Defined.

Lemma strip_prompt_three_prompts_witness :
  Mikrotik.strip_prompt
    (PyStr.join Scenario.LF
       (Scenario.body_lines ++ [Scenario.prompt; Scenario.prompt; Scenario.prompt]))
    (SimDevice.session Scenario.prompt [])
  = (inr (PyStr.strip (PyStr.join Scenario.LF
                         (Scenario.body_lines ++ [Scenario.prompt]))),
     SimDevice.session Scenario.prompt []).
Proof.
  apply (strip_prompt_three_prompts (SimDevice.session Scenario.prompt [])
           (PyStr.join Scenario.LF
              (Scenario.body_lines
               ++ [Scenario.prompt; Scenario.prompt; Scenario.prompt]))
           Scenario.body_lines);
    [discriminate | reflexivity | reflexivity].
Defined.

Lemma command_echo_read_other_exception_witness :
  @Mikrotik.command_echo_read _ Scripted.device Scenario.ping (10 # 1)
    (Scripted.session Scenario.prompt Scenario.LF
       [inr Scenario.ping; inl (ReadException "channel closed")])
  = (inl (ReadException "channel closed"),
     Scripted.session Scenario.prompt Scenario.LF []).
Proof.
  apply (@command_echo_read_other_exception _ Scripted.device
           (Scripted.session Scenario.prompt Scenario.LF
              [inr Scenario.ping; inl (ReadException "channel closed")])
           Scenario.ping (10 # 1) Scenario.ping
           (Mikrotik.inherited
              (Scripted.session Scenario.prompt Scenario.LF
                 [inl (ReadException "channel closed")]))
           (Mikrotik.inherited (Scripted.session Scenario.prompt Scenario.LF []))
           (ReadException "channel closed"));
    reflexivity.
Defined.

Lemma set_base_prompt_raises_witness :
  Mikrotik.set_base_prompt ">" ">" (1 # 1) (SimDevice.session "old" [])
  = (inl (ReadTimeout ">"), SimDevice.session "old" []).
Proof.
  apply (@set_base_prompt_raises _ SimDevice.device
           (SimDevice.session "old" []) ">" ">" (1 # 1) (ReadTimeout ">")
           (Mikrotik.inherited (SimDevice.session "old" []))).
  reflexivity.
Defined.

Lemma set_base_prompt_removes_whitespace_only_witness :
  exists before after,
    "  [admin@MikroTik] > " = before +:+ Scenario.prompt +:+ after
    /\ Usage.all_space before = true /\ Usage.all_space after = true.
Proof.
  apply (@set_base_prompt_removes_whitespace_only _ SimDevice.device
           (SimDevice.session "old" [((0 # 1)%Q, "  [admin@MikroTik] > ")])
           ">" ">" (1 # 1) "  [admin@MikroTik] > "
           (Mikrotik.inherited (SimDevice.session "  [admin@MikroTik] > " []))).
  reflexivity.
Defined.

Lemma session_preparation_leaves_trimmed_prompt_witness :
  PyStr.strip Scenario.prompt = Scenario.prompt.
Proof.
  apply (@session_preparation_leaves_trimmed_prompt _ SimDevice.device
           (SimDevice.session "old" [((0 # 1)%Q, "[admin@MikroTik] > ")])
           [] ∅ (SimDevice.session Scenario.prompt [])).
  reflexivity.
Defined.

Lemma session_preparation_raises_witness :
  @Mikrotik.session_preparation _ Scripted.device [] ∅
    (Scripted.session "old" Scenario.LF [inl (ReadTimeout "[\]>]")])
  = (inl (ReadTimeout "[\]>]"), Scripted.session "old" Scenario.LF [])
  /\ @Mikrotik.session_preparation _ Scripted.device [] ∅
       (Scripted.session "old" Scenario.LF
          [inr "[admin@MikroTik] > "; inl (ReadException "channel closed")])
     = (inl (ReadException "channel closed"),
        Scripted.session "old" Scenario.LF []).
Proof.
  split.
  - apply (proj1 (@session_preparation_raises _ Scripted.device
                    (Scripted.session "old" Scenario.LF
                       [inl (ReadTimeout "[\]>]")]) [] ∅)
             (ReadTimeout "[\]>]")
             (Mikrotik.inherited (Scripted.session "old" Scenario.LF []))).
    reflexivity.
  - apply (proj2 (@session_preparation_raises _ Scripted.device
                    (Scripted.session "old" Scenario.LF
                       [inr "[admin@MikroTik] > ";
                        inl (ReadException "channel closed")]) [] ∅)
             "[admin@MikroTik] > "
             (Mikrotik.inherited
                (Scripted.session "old" Scenario.LF
                   [inl (ReadException "channel closed")]))
             (ReadException "channel closed")
             (Mikrotik.inherited (Scripted.session "old" Scenario.LF [])));
      reflexivity.
Defined.

Lemma init_default_enter_witness :
  @Mikrotik.__init__ _ SimDevice.device {["username" := PyStr "admin"]}
  = @Mikrotik.__init__ _ SimDevice.device
      (<["default_enter" := PyStr Mikrotik.CRLF]> {["username" := PyStr "admin"]}).
Proof.
  apply (@init_default_enter _ SimDevice.device {["username" := PyStr "admin"]}).
  vm_compute. reflexivity.
Defined.

Lemma set_base_prompt_then_strip_prompt_witness :
  (let* _ := Mikrotik.set_base_prompt ">" ">" (1 # 1) in
   Mikrotik.strip_prompt Scenario.two_prompts)
    (SimDevice.session "old" [((0 # 1)%Q, "[admin@MikroTik] > ")])
  = (inr (PyStr.strip (PyStr.join Scenario.LF Scenario.body_lines)),
     SimDevice.session Scenario.prompt []).
Proof.
  apply (@set_base_prompt_then_strip_prompt _ SimDevice.device
           (SimDevice.session "old" [((0 # 1)%Q, "[admin@MikroTik] > ")])
           ">" ">" (1 # 1) "[admin@MikroTik] > "
           (Mikrotik.inherited (SimDevice.session "[admin@MikroTik] > " []))
           Scenario.two_prompts Scenario.body_lines);
    [reflexivity | discriminate | reflexivity].
Defined.
